(** * SteamGuard Telegram bot: a shallow embedding of [src/bot/bot.py]

    The bot receives a chat message, picks one handler through the filters
    given in the [@dp.message(...)] decorators, talks to the backend with
    [call_backend] and answers in the chat.  The handlers are embedded as
    programs of a small writer-and-exception monad whose log keeps, in order,
    every backend request and every [message.answer].

    Conventions of the model.
    - A Python [str] is a list of Unicode code points.
    - A value produced by [response.json()] is a [json] tree; a float is
      kept as its Python [repr].
    - What the Python runtime and the two libraries decide on their own is a
      section variable: the [repr] of lists and dicts, [int()] of a string
      or a float, the text of built-in exceptions, whether a command
      mention names this bot, and the backend's answer to a request.
    - The handlers are given twice.  In [start_with_param] ... [dispatch]
      every [message.answer] completes, which is the run a user sees while
      Telegram takes the replies.  In [start_with_param'] ... [dispatch']
      a send can raise, as the chat decides; over a chat that takes every
      send the two agree ([dispatch'_same]). *)

From Stdlib Require Import List ZArith NArith Bool String Ascii Lia DecimalString.
Import ListNotations.

Set Implicit Arguments.

(** ** Python text *)

Definition char := N.
Definition pystr := list char.

(** A string literal of the source. *)
Definition lit (s : string) : pystr := map N_of_ascii (list_ascii_of_string s).

(** A one-character literal of the source, as a code point. *)
Definition chr (a : ascii) : char := N_of_ascii a.

(** The line feed written [\n] in the source. *)
Definition nl : pystr := [10%N].

Fixpoint str_eqb (a b : pystr) : bool :=
  match a, b with
  | [], [] => true
  | x :: a', y :: b' => N.eqb x y && str_eqb a' b'
  | _, _ => false
  end.

(** [str.isspace] on one code point: the white space of [str.split()] and
    [str.strip()]. *)
Definition isspace (c : char) : bool :=
  ((9 <=? c) && (c <=? 13) || (28 <=? c) && (c <=? 32)
   || (c =? 133) || (c =? 160) || (c =? 5760)
   || (8192 <=? c) && (c <=? 8202)
   || (c =? 8232) || (c =? 8233) || (c =? 8239) || (c =? 8287)
   || (c =? 12288))%N.

(** [s.lstrip()] *)
Fixpoint lstrip (s : pystr) : pystr :=
  match s with
  | [] => []
  | c :: s' => if isspace c then lstrip s' else s
  end.

(** [s.rstrip()] *)
Definition rstrip (s : pystr) : pystr := rev (lstrip (rev s)).

(** [s.strip()] *)
Definition strip (s : pystr) : pystr := rstrip (lstrip s).

(** The longest prefix without white space, and what follows it. *)
Fixpoint word (s : pystr) : pystr * pystr :=
  match s with
  | [] => ([], [])
  | c :: s' =>
      if isspace c then ([], s)
      else let (w, r) := word s' in (c :: w, r)
  end.

(** [s.split(maxsplit=1)]: leading white space is skipped, the first word is
    cut, the white space after it is skipped and the rest, when there is
    one, is kept whole with its trailing white space. *)
Definition split_ws1 (s : pystr) : list pystr :=
  match lstrip s with
  | [] => []
  | s1 =>
      let (w, r) := word s1 in
      match lstrip r with
      | [] => [w]
      | r1 => [w; r1]
      end
  end.

(** Cut at the first occurrence of the one-character separator [sep]. *)
Fixpoint cut (sep : char) (s : pystr) : option (pystr * pystr) :=
  match s with
  | [] => None
  | c :: s' =>
      if N.eqb c sep then Some ([], s')
      else match cut sep s' with
           | Some (l, r) => Some (c :: l, r)
           | None => None
           end
  end.

(** [s.split(sep, 1)] for a one-character [sep]. *)
Definition split_sep1 (sep : char) (s : pystr) : list pystr :=
  match cut sep s with
  | Some (l, r) => [l; r]
  | None => [s]
  end.

(** [sep in s] for a one-character [sep]. *)
Fixpoint contains (sep : char) (s : pystr) : bool :=
  match s with
  | [] => false
  | c :: s' => N.eqb c sep || contains sep s'
  end.

(** [s.partition(sep)], without the separator itself. *)
Definition partition (sep : char) (s : pystr) : pystr * pystr :=
  match cut sep s with
  | Some (l, r) => (l, r)
  | None => (s, [])
  end.

(** [s.startswith(p)] *)
Fixpoint startswith (s p : pystr) {struct p} : bool :=
  match p, s with
  | [], _ => true
  | x :: p', y :: s' => N.eqb x y && startswith s' p'
  | _ :: _, [] => false
  end.

(** [s.replace(old, new, 1)]: the leftmost occurrence of [old] only. *)
Fixpoint replace1 (old new s : pystr) : pystr :=
  if startswith s old then new ++ skipn (List.length old) s
  else match s with
       | [] => []
       | c :: s' => c :: replace1 old new s'
       end.

(** [sep.join(parts)] *)
Fixpoint join (sep : pystr) (parts : list pystr) : pystr :=
  match parts with
  | [] => []
  | [p] => p
  | p :: rest => p ++ sep ++ join sep rest
  end.

(** ** Values decoded from a response body *)

#[warnings="-register-all"] Inductive json :=
| JNull
| JBool (b : bool)
| JInt (z : Z)
| JFloat (repr : pystr)
| JStr (s : pystr)
| JList (l : list json)
| JDict (d : list (pystr * json)).

(** Exceptions.  Those of the interpreter keep the value they were raised
    on; those of the HTTP and JSON layers keep their text. *)
Inductive exn :=
| RuntimeError (arg : json)
| KeyError (key : pystr)
| TypeError (on : json)
| AttributeError (on : json) (attr : pystr)
| ValueError (on : json)
| IndexError
| LibraryError (text : pystr).

Inductive res (A : Type) :=
| Ok (a : A)
| Raise (e : exn).
Arguments Raise {A} e.

(** Truth value of a decoded value, as [not x] and [x or y] take it. *)
Definition truthy (v : json) : bool :=
  match v with
  | JNull => false
  | JBool b => b
  | JInt z => negb (z =? 0)%Z
  | JFloat r => negb (str_eqb r (lit "0.0") || str_eqb r (lit "-0.0"))
  | JStr s => negb (match s with [] => true | _ => false end)
  | JList l => negb (match l with [] => true | _ => false end)
  | JDict d => negb (match d with [] => true | _ => false end)
  end.

(** Key lookup in a dict. *)
Fixpoint lookup (key : pystr) (d : list (pystr * json)) : option json :=
  match d with
  | [] => None
  | (k, v) :: d' => if str_eqb k key then Some v else lookup key d'
  end.

(** [v[key]] for a string key. *)
Definition subscript (v : json) (key : pystr) : res json :=
  match v with
  | JDict d =>
      match lookup key d with
      | Some x => Ok x
      | None => Raise (KeyError key)
      end
  | _ => Raise (TypeError v)
  end.

(** [v.get(key, default)] *)
Definition get_default (v : json) (key : pystr) (default : json) : res json :=
  match v with
  | JDict d =>
      match lookup key d with
      | Some x => Ok x
      | None => Ok default
      end
  | _ => Raise (AttributeError v (lit "get"))
  end.

(** [v.get(key)] *)
Definition get (v : json) (key : pystr) : res json := get_default v key JNull.

(** The items [for item in v] runs through. *)
Definition iterate (v : json) : res (list json) :=
  match v with
  | JList l => Ok l
  | JStr s => Ok (map (fun c => JStr [c]) s)
  | JDict d => Ok (map (fun kv => JStr (fst kv)) d)
  | _ => Raise (TypeError v)
  end.

(** [xs[i]] on a Python list. *)
Definition index (A : Type) (xs : list A) (i : nat) : res A :=
  match nth_error xs i with
  | Some x => Ok x
  | None => Raise IndexError
  end.

(** [str(n)] of an integer. *)
Definition str_of_int (z : Z) : pystr := lit (NilZero.string_of_int (Z.to_int z)).

(** ** The chat message and the backend *)

Record user := { user_id : Z; username : option pystr }.

(** The fields of an aiogram [Message] the program and its filters read. *)
Record message := {
  text : option pystr;
  caption : option pystr;
  from_user : option user
}.

(** What [response.json(content_type=None)] makes of the body. *)
Inductive body :=
| Undecodable (why : pystr)
| Decoded (v : json).

Record response := { http_status : Z; content : body }.

(** What [session.request] comes back with: an exception of the HTTP layer
    (time-out, refused connection) or a response. *)
Inductive outcome :=
| NoResponse (why : pystr)
| Responded (r : response).

(** What a handler does to the outside, in order. *)
Inductive event :=
| Request (method path : pystr) (payload : option json)
| Answer (reply : pystr) (parse_mode : option pystr).

(** ** Computations: a result or an exception, and the events so far *)

Definition M (A : Type) : Type := res A * list event.

Definition ret (A : Type) (a : A) : M A := (Ok a, []).

Definition lift (A : Type) (r : res A) : M A := (r, []).

Definition bind (A B : Type) (m : M A) (k : A -> M B) : M B :=
  match m with
  | (Ok a, t) => let (r, t') := k a in (r, t ++ t')
  | (Raise e, t) => (Raise e, t)
  end.

(** [try: body / except Exception as err: handler err] *)
Definition try_except (A : Type) (body : M A) (handler : exn -> M A) : M A :=
  match body with
  | (Ok a, t) => (Ok a, t)
  | (Raise e, t) => let (r, t') := handler e in (r, t ++ t')
  end.

(** The same sequencing for computations without events. *)
Definition rbind (A B : Type) (r : res A) (k : A -> res B) : res B :=
  match r with
  | Ok a => k a
  | Raise e => Raise e
  end.

Declare Scope py_scope.
Delimit Scope py_scope with py.
Notation "x <- m ;; k" := (bind m (fun x => k))
  (at level 61, m at next level, right associativity) : py_scope.
Notation "m ;; k" := (bind m (fun _ => k))
  (at level 61, right associativity) : py_scope.
Notation "x <~ r ;; k" := (rbind r (fun x => k))
  (at level 61, r at next level, right associativity) : py_scope.
Local Open Scope py_scope.

(** [await message.answer(reply)] and [await message.answer(reply, parse_mode=...)]
    when the send completes; [send], further down, is the send that can
    raise. *)
Definition answer (reply : pystr) : M unit := (Ok tt, [Answer reply None]).
Definition answer_mode (reply mode : pystr) : M unit :=
  (Ok tt, [Answer reply (Some mode)]).

(** [message.text or ''] *)
Definition text_or_empty (m : message) : pystr :=
  match text m with
  | Some t => t
  | None => []
  end.

(** [message.from_user.id] *)
Definition sender_id (m : message) : res Z :=
  match from_user m with
  | Some u => Ok (user_id u)
  | None => Raise (AttributeError JNull (lit "id"))
  end.

(** [message.from_user.username] *)
Definition sender_username (m : message) : res json :=
  match from_user m with
  | Some u =>
      Ok (match username u with
          | Some n => JStr n
          | None => JNull
          end)
  | None => Raise (AttributeError JNull (lit "username"))
  end.

(** [left, right = parts] *)
Definition unpack2 (parts : list pystr) : res (pystr * pystr) :=
  match parts with
  | [l; r] => Ok (l, r)
  | _ => Raise (ValueError (JList (map JStr parts)))
  end.

(** The replies in a log. *)
Definition replies (t : list event) : list pystr :=
  flat_map (fun e => match e with
                     | Answer r _ => [r]
                     | Request _ _ _ => []
                     end) t.

(** ** Sample surroundings for the worked examples *)

Definition sample_repr (v : json) : pystr := lit "<repr>".
Definition sample_int (v : json) : option Z := None.
Definition sample_describe (e : exn) : pystr := lit "<error>".
Definition sample_mention (mention : pystr) : bool := true.

(** A text message from user 42. *)
Definition from_42 (t : string) : message :=
  {| text := Some (lit t);
     caption := None;
     from_user := Some {| user_id := 42; username := Some (lit "gabe") |} |}.

(** A backend answering every request with the given status and body. *)
Definition always (code : Z) (b : body) : pystr -> pystr -> option json -> outcome :=
  fun _ _ _ => Responded {| http_status := code; content := b |}.

(** A pending confirmation as the backend lists it. *)
Definition pending_item (account : Z) (confirmation : string) : json :=
  JDict [(lit "account_id", JInt account);
         (lit "confirmation_id", JStr (lit confirmation))].

(** The body [{"items": items}]. *)
Definition items_body (items : list json) : body :=
  Decoded (JDict [(lit "items", JList items)]).

(** A text message without a sender. *)
Definition unsigned (t : string) : message :=
  {| text := Some (lit t); caption := None; from_user := None |}.

(** A media message from user 42 with a caption and no text. *)
Definition captioned (c : string) : message :=
  {| text := None;
     caption := Some (lit c);
     from_user := Some {| user_id := 42; username := Some (lit "gabe") |} |}.

(** A backend that cannot be reached. *)
Definition unreachable : pystr -> pystr -> option json -> outcome :=
  fun _ _ _ => NoResponse (lit "Cannot connect to host backend:3001").

(** An account and a code as the backend lists them. *)
Definition account_item (i : Z) (alias : string) : json :=
  JDict [(lit "id", JInt i); (lit "alias", JStr (lit alias))].

Definition code_item (alias code : string) : json :=
  JDict [(lit "alias", JStr (lit alias)); (lit "code", JStr (lit code))].

Definition gabe : user := {| user_id := 42; username := Some (lit "gabe") |}.



(** A stand-in for the JSON decoder that knows [null] and [{}] and rejects
    everything else, the empty text included. *)
Definition sample_loads (t : pystr) : body :=
  if str_eqb t (lit "null") then Decoded JNull
  else if str_eqb t (lit "{}") then Decoded (JDict [])
  else Undecodable (lit "Expecting value: line 1 column 1 (char 0)").

(** ** The program *)

Section Bot.

(** [repr] of a list or a dict. *)
Variable repr_compound : json -> pystr.
(** [int(v)] of a string or a float, when it has a value. *)
Variable int_parse : json -> option Z.
(** [str(err)] of an exception raised by the interpreter itself. *)
Variable describe : exn -> pystr.
(** aiogram's mention check: does [/command@mention] address this bot? *)
Variable mention_ok : pystr -> bool.
(** The backend's answer to one request (method, path, JSON payload). *)
Variable backend : pystr -> pystr -> option json -> outcome.

(** [str(v)] *)
Definition py_str (v : json) : pystr :=
  match v with
  | JNull => lit "None"
  | JBool true => lit "True"
  | JBool false => lit "False"
  | JInt z => str_of_int z
  | JFloat r => r
  | JStr s => s
  | JList _ | JDict _ => repr_compound v
  end.

(** [int(v)] *)
Definition py_int (v : json) : res Z :=
  match v with
  | JInt z => Ok z
  | JBool b => Ok (if b then 1 else 0)%Z
  | JStr _ | JFloat _ =>
      match int_parse v with
      | Some z => Ok z
      | None => Raise (ValueError v)
      end
  | _ => Raise (TypeError v)
  end.

(** [str(err)], which is what [f'...{err}'] puts in a reply.  The keys the
    program subscripts with are plain identifiers, whose [repr] is the key
    between single quotes. *)
Definition str_exn (e : exn) : pystr :=
  match e with
  | RuntimeError arg => py_str arg
  | KeyError key => lit "'" ++ key ++ lit "'"
  | LibraryError why => why
  | _ => describe e
  end.

(** [call_backend(method, path, payload)] *)
Definition call_backend (method path : pystr) (payload : option json) : M json :=
  (Ok tt, [Request method path payload]) ;;
  match backend method path payload with
  | NoResponse why => lift (Raise (LibraryError why))
  | Responded response =>
      data <- lift (match content response with
                    | Decoded v => Ok v
                    | Undecodable why => Raise (LibraryError why)
                    end) ;;
      if (http_status response >=? 400)%Z then
        let message :=
          match data with
          | JDict d =>
              match lookup (lit "message") d with
              | Some x => x
              | None => JNull
              end
          | _ => JStr (py_str data)
          end in
        lift (Raise (RuntimeError message))
      else ret data
  end.

(** The dict sent to the [oauth] and [link] endpoints. *)
Definition identity_payload (code : pystr) (message : message) : res json :=
  uid <~ sender_id message ;;
  name <~ sender_username message ;;
  Ok (JDict [(lit "code", JStr code);
             (lit "telegramUserId", JStr (py_str (JInt uid)));
             (lit "username", name)]).

Definition start_help : pystr :=
  lit "SteamGuard Bot ready." ++ nl ++
  lit "Commands:" ++ nl ++
  lit "/add=<code> - link Telegram to web account" ++ nl ++
  lit "/accounts - list Steam accounts" ++ nl ++
  lit "/codes - get auth codes" ++ nl ++
  lit "/confirm <trade_id> - confirm pending trade" ++ nl ++
  lit "/status - bot/backend status".

Definition start_with_param (message : message) : M unit :=
  let text := text_or_empty message in
  let parts := split_ws1 text in
  arg <- lift (if (1 <? List.length parts)%nat then index parts 1 else Ok []) ;;
  if startswith arg (lit "login_") then
    let code := replace1 (lit "login_") [] arg in
    try_except
      (payload <- lift (identity_payload code message) ;;
       call_backend (lit "POST") (lit "/api/telegram/bot/oauth") (Some payload) ;;
       answer (lit "Login approved. Return to SteamGuard Web and wait for auto-login."))
      (fun err => answer (lit "Login failed: " ++ str_exn err))
  else
    answer start_help.

Definition start_greeting : pystr :=
  lit "SteamGuard Bot is active. Use /accounts, /codes or /add=<code> from web settings.".

Definition start_plain (message : message) : M unit :=
  answer start_greeting.

Definition status (message : message) : M unit :=
  try_except
    (uid <- lift (sender_id message) ;;
     call_backend (lit "GET") (lit "/api/telegram/bot/accounts/" ++ py_str (JInt uid)) None ;;
     answer (lit "Backend connection: OK"))
    (fun err => answer (lit "Backend connection error: " ++ str_exn err)).

(** [x or default] *)
Definition or_else (x default : json) : json := if truthy x then x else default.

(** The loop of [accounts]: one line per item, appended to [lines]. *)
Fixpoint account_lines (items : list json) (lines : list pystr) : res (list pystr) :=
  match items with
  | [] => Ok lines
  | item :: rest =>
      i <~ subscript item (lit "id") ;;
      alias <~ subscript item (lit "alias") ;;
      steamid <~ get item (lit "steamid") ;;
      account_lines rest
        (lines ++ [lit "- [" ++ py_str i ++ lit "] " ++ py_str alias ++ lit " (" ++
                   py_str (or_else steamid (JStr (lit "no steamid"))) ++ lit ")"])
  end.

Definition accounts (message : message) : M unit :=
  try_except
    (uid <- lift (sender_id message) ;;
     data <- call_backend (lit "GET") (lit "/api/telegram/bot/accounts/" ++ py_str (JInt uid)) None ;;
     items <- lift (get_default data (lit "items") (JList [])) ;;
     if negb (truthy items) then
       answer (lit "No Steam accounts linked.")
     else
       lines <- lift (its <~ iterate items ;; account_lines its [lit "Your Steam accounts:"]) ;;
       answer (join nl lines))
    (fun err => answer (lit "Failed to fetch accounts: " ++ str_exn err)).

(** The loop of [codes]. *)
Fixpoint code_lines (items : list json) (lines : list pystr) : res (list pystr) :=
  match items with
  | [] => Ok lines
  | item :: rest =>
      alias <~ subscript item (lit "alias") ;;
      code <~ subscript item (lit "code") ;;
      code_lines rest (lines ++ [lit "- " ++ py_str alias ++ lit ": `" ++ py_str code ++ lit "`"])
  end.

Definition codes (message : message) : M unit :=
  try_except
    (uid <- lift (sender_id message) ;;
     data <- call_backend (lit "GET") (lit "/api/telegram/bot/codes/" ++ py_str (JInt uid)) None ;;
     items <- lift (get_default data (lit "items") (JList [])) ;;
     if negb (truthy items) then
       answer (lit "No linked accounts or codes unavailable.")
     else
       lines <- lift (its <~ iterate items ;; code_lines its [lit "Current Steam codes:"]) ;;
       answer_mode (join nl lines) (lit "Markdown"))
    (fun err => answer (lit "Failed to fetch codes: " ++ str_exn err)).

(** The first loop of [confirm] (an identifier with a colon): the first item
    whose account id and confirmation id both match, else [None]. *)
Fixpoint find_pair (left right : pystr) (items : list json) : res json :=
  match items with
  | [] => Ok JNull
  | item :: rest =>
      account <~ subscript item (lit "account_id") ;;
      if str_eqb (py_str account) left then
        confirmation <~ subscript item (lit "confirmation_id") ;;
        if str_eqb (py_str confirmation) right then Ok item
        else find_pair left right rest
      else find_pair left right rest
  end.

(** The second loop of [confirm] (a bare identifier). *)
Fixpoint find_bare (identifier : pystr) (items : list json) : res json :=
  match items with
  | [] => Ok JNull
  | item :: rest =>
      confirmation <~ subscript item (lit "confirmation_id") ;;
      if str_eqb (py_str confirmation) identifier then Ok item
      else find_bare identifier rest
  end.

(** The value of [chosen] after the two loops of [confirm]. *)
Definition resolve (items : json) (identifier : pystr) : res json :=
  if contains (chr ":") identifier then
    lr <~ unpack2 (split_sep1 (chr ":") identifier) ;;
    its <~ iterate items ;;
    find_pair (fst lr) (snd lr) its
  else
    its <~ iterate items ;;
    find_bare identifier its.

(** The dict sent to the [confirm] endpoint. *)
Definition confirm_payload (message : message) (chosen : json) : res json :=
  uid <~ sender_id message ;;
  account <~ subscript chosen (lit "account_id") ;;
  account_id <~ py_int account ;;
  confirmation <~ subscript chosen (lit "confirmation_id") ;;
  nonce <~ get chosen (lit "nonce") ;;
  Ok (JDict [(lit "telegramUserId", JStr (py_str (JInt uid)));
             (lit "accountId", JInt account_id);
             (lit "confirmationId", JStr (py_str confirmation));
             (lit "nonce", nonce)]).

Definition confirm_usage : pystr :=
  lit "Usage: /confirm <trade_id> OR /confirm <account_id>:<trade_id>".

Definition confirm (message : message) : M unit :=
  let text := text_or_empty message in
  let parts := split_ws1 text in
  if (List.length parts <? 2)%nat then
    answer confirm_usage
  else
    part <- lift (index parts 1) ;;
    let identifier := strip part in
    try_except
      (uid <- lift (sender_id message) ;;
       pending <- call_backend (lit "GET") (lit "/api/telegram/bot/confirms/" ++ py_str (JInt uid)) None ;;
       items <- lift (get_default pending (lit "items") (JList [])) ;;
       if negb (truthy items) then
         answer (lit "No pending confirmations.")
       else
         chosen <- lift (resolve items identifier) ;;
         if negb (truthy chosen) then
           answer (lit "Trade confirmation id not found in pending queue.")
         else
           payload <- lift (confirm_payload message chosen) ;;
           call_backend (lit "POST") (lit "/api/telegram/bot/confirm") (Some payload) ;;
           answer (lit "Trade confirmation sent to Steam successfully."))
      (fun err => answer (lit "Confirm failed: " ++ str_exn err)).

(** The [try] block shared by the two [/add] branches of [fallback]. *)
Definition link (code : pystr) (message : message) : M unit :=
  try_except
    (payload <- lift (identity_payload code message) ;;
     call_backend (lit "POST") (lit "/api/telegram/bot/link") (Some payload) ;;
     answer (lit "Telegram account linked successfully."))
    (fun err => answer (lit "Link failed: " ++ str_exn err)).

Definition fallback (message : message) : M unit :=
  let text := strip (text_or_empty message) in
  if startswith text (lit "/add=") then
    code <- lift (index (split_sep1 (chr "=") text) 1) ;;
    link code message
  else if startswith text (lit "/add ") then
    part <- lift (index (split_ws1 text) 1) ;;
    link (strip part) message
  else
    answer (lit "Unknown command. Use /accounts, /codes, /confirm or /add=<code>.").

(** ** Routing

    aiogram tries the handlers in the order of their decorators and runs
    the first whose filter accepts the message.  [Command(name)] reads
    [message.text or message.caption], splits it like [split(maxsplit=1)],
    wants the first word to be [/name] or [/name@mention] with a mention of
    this bot, and, for [CommandStart(deep_link=True)], wants an argument
    after it. *)
Definition command (name : pystr) (deep_link : bool) (m : message) : bool :=
  let text :=
    match text m with
    | Some (c :: t) => c :: t
    | _ => match caption m with
           | Some t => t
           | None => []
           end
    end in
  match split_ws1 text with
  | [] => false
  | [] :: _ => false
  | (prefix :: rest) :: args =>
      let (cmd, mention) := partition (chr "@") rest in
      N.eqb prefix (chr "/")
      && match mention with
         | [] => true
         | _ => mention_ok mention
         end
      && str_eqb cmd name
      && (negb deep_link || match args with
                            | (_ :: _) :: _ => true
                            | _ => false
                            end)
  end.

(** The dispatcher [dp] with its seven registered handlers. *)
Definition dispatch (m : message) : M unit :=
  if command (lit "start") true m then start_with_param m
  else if command (lit "start") false m then start_plain m
  else if command (lit "status") false m then status m
  else if command (lit "accounts") false m then accounts m
  else if command (lit "codes") false m then codes m
  else if command (lit "confirm") false m then confirm m
  else fallback m.

(** ** Shapes of a computation's log *)

(** No reply was sent. *)
Definition silent (A : Type) (m : M A) : Prop := replies (snd m) = [].

(** The body of a [try]: it ends normally after exactly one reply, or it
    raises before any reply. *)
Definition guarded (m : M unit) : Prop :=
  match m with
  | (Ok _, t) => List.length (replies t) = 1%nat
  | (Raise _, t) => replies t = []
  end.

(** The computation ends normally and has sent exactly one reply. *)
Definition once (m : M unit) : Prop :=
  exists t, m = (Ok tt, t) /\ List.length (replies t) = 1%nat.

(** The prefixes of the replies the [except] clauses send. *)
Definition failure_prefixes : list pystr :=
  [lit "Login failed: "; lit "Backend connection error: ";
   lit "Failed to fetch accounts: "; lit "Failed to fetch codes: ";
   lit "Confirm failed: "; lit "Link failed: "].

(** The backend's answer to this request makes [call_backend] raise [e]. *)
Definition raising (method path : pystr) (payload : option json) (e : exn) : Prop :=
  call_backend method path payload = (Raise e, [Request method path payload]).

(** A computation hides no failed call: when it ends normally none of its
    requests raised, and when it raises, the exception is the one of the
    request that raised. *)
Definition faithful (A : Type) (m : M A) : Prop :=
  match m with
  | (Ok _, t) =>
      forall method path payload e,
        In (Request method path payload) t -> ~ raising method path payload e
  | (Raise e, t) =>
      forall method path payload e',
        In (Request method path payload) t -> raising method path payload e' ->
        e' = e
  end.

(** A handler reports a failed call: if a request of its log raised [e],
    its only reply is a failure prefix followed by [str(e)]. *)
Definition reports (m : M unit) : Prop :=
  forall t method path payload e,
    m = (Ok tt, t) ->
    In (Request method path payload) t ->
    raising method path payload e ->
    exists prefix, In prefix failure_prefixes /\ replies t = [prefix ++ str_exn e].

(** ** More of the program's surroundings *)

(** [s.rstrip('/')]: the slashes at the end are removed. *)
Fixpoint drop_slashes (s : pystr) : pystr :=
  match s with
  | [] => []
  | c :: s' => if N.eqb c (chr "/") then drop_slashes s' else s
  end.

Definition rstrip_slash (s : pystr) : pystr := rev (drop_slashes (rev s)).

(** The [url] of [call_backend]: [f"{BACKEND_URL.rstrip('/')}{path}"]. *)
Definition url_for (backend_url path : pystr) : pystr :=
  rstrip_slash backend_url ++ path.

(** The line of one account in the reply of [accounts]. *)
Definition account_line (i alias steamid : json) : pystr :=
  lit "- [" ++ py_str i ++ lit "] " ++ py_str alias ++ lit " (" ++
  py_str (or_else steamid (JStr (lit "no steamid"))) ++ lit ")".

(** The line of one code in the reply of [codes]. *)
Definition code_line (alias code : json) : pystr :=
  lit "- " ++ py_str alias ++ lit ": `" ++ py_str code ++ lit "`".

Definition confirm_sent : pystr :=
  lit "Trade confirmation sent to Steam successfully.".

Definition unknown_command : pystr :=
  lit "Unknown command. Use /accounts, /codes, /confirm or /add=<code>.".

Definition is_request (e : event) : bool :=
  match e with
  | Request _ _ _ => true
  | Answer _ _ => false
  end.

(** A log of at most [n] requests and nothing else. *)
Definition quiet (n : nat) (t : list event) : Prop :=
  forallb is_request t = true /\ (List.length t <= n)%nat.

(** The body of a [try] with at most [n] requests: they come first, and
    the reply, if the body gets to one, is its last event. *)
Definition tidy (n : nat) (m : M unit) : Prop :=
  match m with
  | (Ok _, t) => exists reqs reply mode, t = reqs ++ [Answer reply mode] /\ quiet n reqs
  | (Raise _, t) => quiet n t
  end.

(** A handler's whole run: requests first, at most [n], then the reply. *)
Definition shaped (n : nat) (m : M unit) : Prop :=
  exists reqs reply mode,
    m = (Ok tt, reqs ++ [Answer reply mode]) /\ quiet n reqs.

(** [line] is the line [accounts] writes for [item]. *)
Definition account_row (item : json) (line : pystr) : Prop :=
  exists i alias steamid,
    subscript item (lit "id") = Ok i /\
    subscript item (lit "alias") = Ok alias /\
    get item (lit "steamid") = Ok steamid /\
    line = account_line i alias steamid.

(** [line] is the line [codes] writes for [item]. *)
Definition code_row (item : json) (line : pystr) : Prop :=
  exists alias code,
    subscript item (lit "alias") = Ok alias /\
    subscript item (lit "code") = Ok code /\
    line = code_line alias code.

(** The names the command filters of the program look for. *)
Definition command_names : list pystr :=
  [lit "start"; lit "status"; lit "accounts"; lit "codes"; lit "confirm"].

(** ** The body as it comes from the wire

    [response.json(content_type=None)] is aiohttp's: it strips the bytes of
    the body of ASCII white space, returns [None] without decoding anything
    when nothing is left, and otherwise hands what is left to the JSON
    decoder [loads], which returns a value or raises. *)

Definition is_ascii_space (c : char) : bool :=
  ((9 <=? c) && (c <=? 13) || (c =? 32))%N.

Fixpoint drop_while (p : char -> bool) (s : pystr) : pystr :=
  match s with
  | [] => []
  | c :: s' => if p c then drop_while p s' else s
  end.

(** [body.strip()] on bytes. *)
Definition bytes_strip (raw : pystr) : pystr :=
  rev (drop_while is_ascii_space (rev (drop_while is_ascii_space raw))).

Definition response_json (loads : pystr -> body) (raw : pystr) : body :=
  match bytes_strip raw with
  | [] => Decoded JNull
  | c :: stripped => loads (c :: stripped)
  end.

(** ** Sends that can fail

    [message.answer] is a request to Telegram and can raise like any other.
    The handlers are given a second time over a chat that may refuse a
    send: [send] consults it, and the log tells a send that completed,
    [Did (Answer ...)], from one that raised, [Refused ...].  The handlers
    above are these with a chat that takes everything. *)

Inductive step :=
| Did (e : event)
| Refused (reply : pystr) (parse_mode : option pystr).

Definition T (A : Type) : Type := res A * list step.

Definition lift' (A : Type) (r : res A) : T A := (r, []).

Definition bind' (A B : Type) (m : T A) (k : A -> T B) : T B :=
  match m with
  | (Ok a, t) => let (r, t') := k a in (r, t ++ t')
  | (Raise e, t) => (Raise e, t)
  end.

Definition try_except' (A : Type) (body : T A) (handler : exn -> T A) : T A :=
  match body with
  | (Ok a, t) => (Ok a, t)
  | (Raise e, t) => let (r, t') := handler e in (r, t ++ t')
  end.

(** A computation that sends nothing, seen in the longer log. *)
Definition up (A : Type) (m : M A) : T A := (fst m, map Did (snd m)).

Declare Scope send_scope.
Delimit Scope send_scope with send.
Notation "x <- m ;; k" := (bind' m (fun x => k))
  (at level 61, m at next level, right associativity) : send_scope.
Notation "m ;; k" := (bind' m (fun _ => k))
  (at level 61, right associativity) : send_scope.

Section Sending.

(** What Telegram makes of [message.answer(reply, parse_mode=mode)]:
    [None] when the send completes, the text of the exception when it
    raises. *)
Variable chat : pystr -> option pystr -> option pystr.

Local Open Scope send_scope.

(** [await message.answer(reply, parse_mode=mode)] *)
Definition send (reply : pystr) (mode : option pystr) : T unit :=
  match chat reply mode with
  | None => (Ok tt, [Did (Answer reply mode)])
  | Some why => (Raise (LibraryError why), [Refused reply mode])
  end.

Definition start_with_param' (message : message) : T unit :=
  let text := text_or_empty message in
  let parts := split_ws1 text in
  arg <- lift' (if (1 <? List.length parts)%nat then index parts 1 else Ok []) ;;
  if startswith arg (lit "login_") then
    let code := replace1 (lit "login_") [] arg in
    try_except'
      (payload <- lift' (identity_payload code message) ;;
       up (call_backend (lit "POST") (lit "/api/telegram/bot/oauth") (Some payload)) ;;
       send (lit "Login approved. Return to SteamGuard Web and wait for auto-login.") None)
      (fun err => send (lit "Login failed: " ++ str_exn err) None)
  else
    send start_help None.

Definition start_plain' (message : message) : T unit :=
  send start_greeting None.

Definition status' (message : message) : T unit :=
  try_except'
    (uid <- lift' (sender_id message) ;;
     up (call_backend (lit "GET") (lit "/api/telegram/bot/accounts/" ++ py_str (JInt uid)) None) ;;
     send (lit "Backend connection: OK") None)
    (fun err => send (lit "Backend connection error: " ++ str_exn err) None).

Definition accounts' (message : message) : T unit :=
  try_except'
    (uid <- lift' (sender_id message) ;;
     data <- up (call_backend (lit "GET") (lit "/api/telegram/bot/accounts/" ++ py_str (JInt uid)) None) ;;
     items <- lift' (get_default data (lit "items") (JList [])) ;;
     if negb (truthy items) then
       send (lit "No Steam accounts linked.") None
     else
       lines <- lift' (its <~ iterate items ;; account_lines its [lit "Your Steam accounts:"]) ;;
       send (join nl lines) None)
    (fun err => send (lit "Failed to fetch accounts: " ++ str_exn err) None).

Definition codes' (message : message) : T unit :=
  try_except'
    (uid <- lift' (sender_id message) ;;
     data <- up (call_backend (lit "GET") (lit "/api/telegram/bot/codes/" ++ py_str (JInt uid)) None) ;;
     items <- lift' (get_default data (lit "items") (JList [])) ;;
     if negb (truthy items) then
       send (lit "No linked accounts or codes unavailable.") None
     else
       lines <- lift' (its <~ iterate items ;; code_lines its [lit "Current Steam codes:"]) ;;
       send (join nl lines) (Some (lit "Markdown")))
    (fun err => send (lit "Failed to fetch codes: " ++ str_exn err) None).

Definition confirm' (message : message) : T unit :=
  let text := text_or_empty message in
  let parts := split_ws1 text in
  if (List.length parts <? 2)%nat then
    send confirm_usage None
  else
    part <- lift' (index parts 1) ;;
    let identifier := strip part in
    try_except'
      (uid <- lift' (sender_id message) ;;
       pending <- up (call_backend (lit "GET") (lit "/api/telegram/bot/confirms/" ++ py_str (JInt uid)) None) ;;
       items <- lift' (get_default pending (lit "items") (JList [])) ;;
       if negb (truthy items) then
         send (lit "No pending confirmations.") None
       else
         chosen <- lift' (resolve items identifier) ;;
         if negb (truthy chosen) then
           send (lit "Trade confirmation id not found in pending queue.") None
         else
           payload <- lift' (confirm_payload message chosen) ;;
           up (call_backend (lit "POST") (lit "/api/telegram/bot/confirm") (Some payload)) ;;
           send (lit "Trade confirmation sent to Steam successfully.") None)
      (fun err => send (lit "Confirm failed: " ++ str_exn err) None).

Definition link' (code : pystr) (message : message) : T unit :=
  try_except'
    (payload <- lift' (identity_payload code message) ;;
     up (call_backend (lit "POST") (lit "/api/telegram/bot/link") (Some payload)) ;;
     send (lit "Telegram account linked successfully.") None)
    (fun err => send (lit "Link failed: " ++ str_exn err) None).

Definition fallback' (message : message) : T unit :=
  let text := strip (text_or_empty message) in
  if startswith text (lit "/add=") then
    code <- lift' (index (split_sep1 (chr "=") text) 1) ;;
    link' code message
  else if startswith text (lit "/add ") then
    part <- lift' (index (split_ws1 text) 1) ;;
    link' (strip part) message
  else
    send (lit "Unknown command. Use /accounts, /codes, /confirm or /add=<code>.") None.

Definition dispatch' (m : message) : T unit :=
  if command (lit "start") true m then start_with_param' m
  else if command (lit "start") false m then start_plain' m
  else if command (lit "status") false m then status' m
  else if command (lit "accounts") false m then accounts' m
  else if command (lit "codes") false m then codes' m
  else if command (lit "confirm") false m then confirm' m
  else fallback' m.

(** A send that completed, a send of any outcome, a request. *)
Definition is_delivery (s : step) : bool :=
  match s with
  | Did (Answer _ _) => true
  | _ => false
  end.

Definition is_send (s : step) : bool :=
  match s with
  | Did (Answer _ _) => true
  | Refused _ _ => true
  | Did (Request _ _ _) => false
  end.



(** The step is a send, and its outcome is the one the chat gives. *)
Definition settled (s : step) : Prop :=
  match s with
  | Did (Answer reply mode) => chat reply mode = None
  | Refused reply mode => chat reply mode <> None
  | Did (Request _ _ _) => False
  end.

(** How the sends of a handler end: one send, or a refused send and the
    send of the [except] clause after it; the last one completed exactly
    when the handler ends normally. *)
Definition ending (r : res unit) (sends : list step) : Prop :=
  exists last,
    settled last /\
    is_delivery last = match r with Ok _ => true | Raise _ => false end /\
    (sends = [last] \/
     exists reply mode, chat reply mode <> None /\
                        sends = [Refused reply mode; last]).

(** The body of a [try]: requests, then either the one send that ends it
    (completed or refused) or no send at all when it raised earlier. *)
Definition tidy' (n : nat) (m : T unit) : Prop :=
  exists reqs,
    quiet n reqs /\
    match m with
    | (Ok _, t) =>
        exists reply mode,
          chat reply mode = None /\ t = map Did reqs ++ [Did (Answer reply mode)]
    | (Raise _, t) =>
        t = map Did reqs \/
        exists reply mode,
          chat reply mode <> None /\ t = map Did reqs ++ [Refused reply mode]
    end.

(** A handler's whole run: at most [n] requests, then its sends. *)
Definition shaped' (n : nat) (m : T unit) : Prop :=
  exists reqs sends,
    snd m = map Did reqs ++ sends /\ quiet n reqs /\ ending (fst m) sends.

End Sending.

(** ** Facts about text *)

Lemma str_eqb_eq (a b : pystr) : str_eqb a b = true <-> a = b.
Proof.
  revert b; induction a as [|x a IH]; intros [|y b]; simpl; split;
    try congruence; try reflexivity.
  - intros H. apply andb_true_iff in H. destruct H as [Hx Hr].
    apply N.eqb_eq in Hx. apply IH in Hr. congruence.
  - intros H. injection H as -> ->. rewrite N.eqb_refl. simpl.
    apply IH. reflexivity.
Qed.

Lemma str_eqb_refl (a : pystr) : str_eqb a a = true.
Proof. apply str_eqb_eq. reflexivity. Qed.

Lemma lstrip_spaces (ws s : pystr) :
  forallb isspace ws = true -> lstrip (ws ++ s) = lstrip s.
Proof.
  induction ws as [|c ws IH]; simpl; [reflexivity|].
  intros H. apply andb_true_iff in H. destruct H as [Hc Hws].
  rewrite Hc. auto.
Qed.

Lemma lstrip_all_spaces (ws : pystr) :
  forallb isspace ws = true -> lstrip ws = [].
Proof.
  intros H. rewrite <- (app_nil_r ws). rewrite lstrip_spaces by assumption.
  reflexivity.
Qed.

Lemma lstrip_head (c : char) (s : pystr) :
  isspace c = false -> lstrip (c :: s) = c :: s.
Proof. intros H. simpl. rewrite H. reflexivity. Qed.

(** What [lstrip] leaves is empty or starts with a visible character. *)
Lemma lstrip_shape (s : pystr) :
  lstrip s = [] \/ exists c r, lstrip s = c :: r /\ isspace c = false.
Proof.
  induction s as [|c s IH]; simpl; [now left|].
  destruct (isspace c) eqn:Hc; [exact IH|].
  right. exists c, s. split; [reflexivity | exact Hc].
Qed.

Lemma lstrip_visible_last (s : pystr) (c : char) :
  isspace c = false -> lstrip (s ++ [c]) <> [].
Proof.
  intros Hc. induction s as [|x s IH]; simpl.
  - rewrite Hc. discriminate.
  - destruct (isspace x); [exact IH | discriminate].
Qed.

(** What [rstrip] leaves is empty or ends with a visible character. *)
Lemma rstrip_shape (s : pystr) :
  rstrip s = [] \/ exists r c, rstrip s = r ++ [c] /\ isspace c = false.
Proof.
  unfold rstrip. destruct (lstrip_shape (rev s)) as [H | (c & r & H & Hc)].
  - left. rewrite H. reflexivity.
  - right. exists (rev r), c. rewrite H. simpl. split; [reflexivity | exact Hc].
Qed.

Lemma word_visible (w r : pystr) :
  forallb (fun c => negb (isspace c)) w = true ->
  match r with [] => True | c :: _ => isspace c = true end ->
  word (w ++ r) = (w, r).
Proof.
  intros Hw Hr. induction w as [|x w IH]; simpl.
  - destruct r as [|c r]; simpl; [reflexivity|]. rewrite Hr. reflexivity.
  - simpl in Hw. apply andb_true_iff in Hw. destruct Hw as [Hx Hw].
    apply negb_true_iff in Hx. rewrite Hx. rewrite (IH Hw). reflexivity.
Qed.

(** A visible word alone, possibly followed by white space, is one part. *)
Lemma split_ws1_single (w ws : pystr) :
  w <> [] ->
  forallb (fun c => negb (isspace c)) w = true ->
  forallb isspace ws = true ->
  split_ws1 (w ++ ws) = [w].
Proof.
  intros Hne Hw Hws. unfold split_ws1.
  destruct w as [|x w]; [congruence|].
  assert (Hx : isspace x = false).
  { simpl in Hw. apply andb_true_iff in Hw. apply negb_true_iff. tauto. }
  change ((x :: w) ++ ws) with (x :: (w ++ ws)).
  rewrite lstrip_head by exact Hx.
  change (x :: (w ++ ws)) with ((x :: w) ++ ws).
  rewrite word_visible; [| assumption | destruct ws as [|c ws]; simpl in *;
    [exact I | apply andb_true_iff in Hws; tauto]].
  rewrite lstrip_all_spaces by assumption. reflexivity.
Qed.

(** A visible word followed by white space and more: two parts, the second
    being what [lstrip] leaves of the rest. *)
Lemma split_ws1_second (w tail : pystr) (x : char) (rest : pystr) :
  w <> [] ->
  forallb (fun c => negb (isspace c)) w = true ->
  match tail with [] => True | c :: _ => isspace c = true end ->
  lstrip tail = x :: rest ->
  split_ws1 (w ++ tail) = [w; x :: rest].
Proof.
  intros Hne Hw Htail Hrest. unfold split_ws1.
  destruct w as [|y w]; [congruence|].
  assert (Hy : isspace y = false).
  { simpl in Hw. apply andb_true_iff in Hw. apply negb_true_iff. tauto. }
  change ((y :: w) ++ tail) with (y :: (w ++ tail)).
  rewrite lstrip_head by exact Hy.
  change (y :: (w ++ tail)) with ((y :: w) ++ tail).
  rewrite word_visible by assumption.
  rewrite Hrest. reflexivity.
Qed.

(** A visible word, white space, and a rest that starts with a visible
    character are two parts; the rest is kept as it is. *)
Lemma split_ws1_pair (w ws : pystr) (c : char) (rest : pystr) :
  w <> [] ->
  forallb (fun c => negb (isspace c)) w = true ->
  ws <> [] ->
  forallb isspace ws = true ->
  isspace c = false ->
  split_ws1 (w ++ ws ++ c :: rest) = [w; c :: rest].
Proof.
  intros Hne Hw Hwsne Hws Hc. apply split_ws1_second; try assumption.
  - destruct ws as [|y ws]; [congruence|]. simpl in *.
    apply andb_true_iff in Hws. tauto.
  - rewrite lstrip_spaces by assumption. apply lstrip_head. exact Hc.
Qed.

Lemma startswith_app (p s : pystr) : startswith (p ++ s) p = true.
Proof.
  induction p as [|x p IH]; simpl; [reflexivity|].
  rewrite N.eqb_refl. exact IH.
Qed.

Lemma startswith_inv (s p : pystr) :
  startswith s p = true -> exists r, s = p ++ r.
Proof.
  revert s; induction p as [|x p IH]; intros s H.
  - exists s. reflexivity.
  - destruct s as [|y s]; simpl in H; [discriminate|].
    apply andb_true_iff in H. destruct H as [Hx Hr].
    apply N.eqb_eq in Hx. destruct (IH _ Hr) as [r ->].
    exists r. subst. reflexivity.
Qed.

(** Replacing the first [old] in a text that starts with [old] removes
    that prefix and nothing else. *)
Lemma replace1_prefix (old s : pystr) : replace1 old [] (old ++ s) = s.
Proof.
  destruct (old ++ s) as [|c t] eqn:E; simpl.
  - destruct old; [simpl in E; subst; reflexivity | discriminate].
  - rewrite <- E. rewrite startswith_app. simpl.
    rewrite skipn_app, skipn_all, Nat.sub_diag. reflexivity.
Qed.

Lemma index_second (A : Type) (xs : list A) :
  (List.length xs <? 2)%nat = false -> exists x, index xs 1 = Ok x.
Proof.
  intros H. apply Nat.ltb_ge in H.
  destruct xs as [|a [|b xs]]; simpl in H; try lia.
  exists b. reflexivity.
Qed.

(** ** Facts about logs *)

Lemma replies_app (t u : list event) : replies (t ++ u) = replies t ++ replies u.
Proof. unfold replies. apply flat_map_app. Qed.

Lemma silent_lift (A : Type) (r : res A) : silent (lift r).
Proof. reflexivity. Qed.

Lemma silent_call_backend (method path : pystr) (payload : option json) :
  silent (call_backend method path payload).
Proof.
  unfold silent, call_backend. simpl.
  destruct (backend method path payload) as [why | r]; simpl; [reflexivity|].
  destruct (content r); simpl; [reflexivity|].
  destruct (http_status r >=? 400)%Z; reflexivity.
Qed.

Lemma guarded_answer (reply : pystr) : guarded (answer reply).
Proof. reflexivity. Qed.

Lemma guarded_answer_mode (reply mode : pystr) : guarded (answer_mode reply mode).
Proof. reflexivity. Qed.

Lemma guarded_bind (A : Type) (m : M A) (k : A -> M unit) :
  silent m -> (forall a, guarded (k a)) -> guarded (bind m k).
Proof.
  unfold silent, guarded, bind. destruct m as [[a | e] t]; simpl; intros Hm Hk.
  - specialize (Hk a). destruct (k a) as [[u | e] t'];
      rewrite replies_app, Hm; exact Hk.
  - exact Hm.
Qed.

Lemma once_answer (reply : pystr) : once (answer reply).
Proof. exists [Answer reply None]. split; reflexivity. Qed.

Lemma once_try (body : M unit) (handler : exn -> M unit) :
  guarded body -> (forall e, once (handler e)) -> once (try_except body handler).
Proof.
  unfold guarded, try_except. destruct body as [[[] | e] t]; intros Hb Hh.
  - exists t. split; [reflexivity | exact Hb].
  - destruct (Hh e) as (t' & -> & Ht'). exists (t ++ t'). split; [reflexivity|].
    rewrite replies_app, Hb. exact Ht'.
Qed.

Lemma once_after (A : Type) (a : A) (k : A -> M unit) :
  once (k a) -> once (bind (lift (Ok a)) k).
Proof.
  intros (t & E & Ht). exists t. unfold bind, lift. rewrite E. split; auto.
Qed.

Create HintDb log.
#[local] Hint Resolve silent_lift silent_call_backend guarded_answer
  guarded_answer_mode once_answer : log.

Ltac log_steps :=
  repeat first
    [ apply once_try
    | apply guarded_bind; [auto with log | intros ?]
    | progress auto with log
    | match goal with |- guarded (if ?b then _ else _) => destruct b end
    | intros ? ].

(** ** Every handler answers once *)

Lemma start_with_param_once (m : message) : once (start_with_param m).
Proof.
  unfold start_with_param.
  assert (H : exists arg,
             (if (1 <? List.length (split_ws1 (text_or_empty m)))%nat
              then index (split_ws1 (text_or_empty m)) 1 else Ok []) = Ok arg).
  { destruct (1 <? List.length (split_ws1 (text_or_empty m)))%nat eqn:E; [|eauto].
    apply index_second. apply Nat.ltb_lt in E. apply Nat.ltb_ge. lia. }
  destruct H as [arg ->]. apply once_after.
  destruct (startswith arg (lit "login_")); log_steps.
Qed.

Lemma start_plain_once (m : message) : once (start_plain m).
Proof. apply once_answer. Qed.

Lemma status_once (m : message) : once (status m).
Proof. unfold status. log_steps. Qed.

Lemma accounts_once (m : message) : once (accounts m).
Proof. unfold accounts. log_steps. Qed.

Lemma codes_once (m : message) : once (codes m).
Proof. unfold codes. log_steps. Qed.

Lemma confirm_once (m : message) : once (confirm m).
Proof.
  unfold confirm.
  destruct (List.length (split_ws1 (text_or_empty m)) <? 2)%nat eqn:E;
    [apply once_answer|].
  destruct (index_second _ E) as [part ->]. apply once_after. log_steps.
Qed.

Lemma link_once (code : pystr) (m : message) : once (link code m).
Proof. unfold link. log_steps. Qed.

(** After [strip], a text that starts with [/add ] has a second part. *)
Lemma add_space_second (s : pystr) :
  startswith (strip s) (lit "/add ") = true ->
  exists part, index (split_ws1 (strip s)) 1 = Ok part.
Proof.
  intros H. destruct (startswith_inv _ _ H) as [r E].
  unfold strip in *. destruct (rstrip_shape (lstrip s)) as [E0 | (r0 & c & E1 & Hc)].
  - rewrite E0 in E. discriminate.
  - rewrite E. rewrite E1 in E.
    assert (Hr : exists r', r = r' ++ [c]).
    { destruct (exists_last (l := r)) as (r' & c' & ->).
      - intros ->. rewrite app_nil_r in E.
        change (lit "/add ") with (lit "/add" ++ [32%N]) in E.
        apply app_inj_tail in E. destruct E as [_ ->]. discriminate.
      - exists r'. rewrite app_assoc in E. apply app_inj_tail in E.
        destruct E as [_ ->]. reflexivity. }
    destruct Hr as [r' ->].
    change (lit "/add " ++ r' ++ [c]) with (lit "/add" ++ [32%N] ++ r' ++ [c]).
    destruct (lstrip_shape (r' ++ [c])) as [E2 | (x & rest & E2 & Hx)].
    + exfalso. exact (lstrip_visible_last r' c Hc E2).
    + rewrite (@split_ws1_second (lit "/add") ([32%N] ++ r' ++ [c]) x rest);
        [eexists; reflexivity | discriminate | reflexivity | reflexivity | exact E2].
Qed.

(** A text that starts with [/add=] has a part after the first [=]. *)
Lemma add_equals_second (s : pystr) :
  startswith s (lit "/add=") = true ->
  exists r, s = lit "/add=" ++ r /\ index (split_sep1 (chr "=") s) 1 = Ok r.
Proof.
  intros H. destruct (startswith_inv _ _ H) as [r ->].
  exists r. split; reflexivity.
Qed.

Lemma fallback_once (m : message) : once (fallback m).
Proof.
  unfold fallback.
  destruct (startswith (strip (text_or_empty m)) (lit "/add=")) eqn:E1.
  - destruct (add_equals_second _ E1) as (r & _ & ->).
    apply once_after. apply link_once.
  - destruct (startswith (strip (text_or_empty m)) (lit "/add ")) eqn:E2.
    + destruct (add_space_second _ E2) as [part ->].
      apply once_after. apply link_once.
    + apply once_answer.
Qed.

(** While every send completes: whatever the message, and whatever the
    backend answers, the dispatcher ends normally and its log holds
    exactly one reply, on the error paths of every handler as well. *)
Lemma dispatch_replies_exactly_once (m : message) :
  exists t, dispatch m = (Ok tt, t) /\ List.length (replies t) = 1%nat.
Proof.
  unfold dispatch.
  repeat match goal with |- context [if ?b then _ else _] => destruct b end.
  - apply start_with_param_once.
  - apply start_plain_once.
  - apply status_once.
  - apply accounts_once.
  - apply codes_once.
  - apply confirm_once.
  - apply fallback_once.
Qed.

(** ** Failed calls are reported *)

(** Every backend call logs its request and nothing else. *)
Lemma call_backend_log (method path : pystr) (payload : option json) :
  exists r, call_backend method path payload = (r, [Request method path payload]).
Proof.
  unfold call_backend. simpl.
  destruct (backend method path payload) as [why | r]; simpl; [eauto|].
  destruct (content r); simpl; [eauto|].
  destruct (http_status r >=? 400)%Z; simpl; eauto.
Qed.

Lemma bind_lift_ok (A B : Type) (a : A) (k : A -> M B) :
  bind (lift (Ok a)) k = k a.
Proof. unfold bind, lift. destruct (k a). reflexivity. Qed.

Lemma faithful_lift (A : Type) (r : res A) : faithful (lift r).
Proof. unfold faithful, lift. destruct r; intros ? ? ? ? []. Qed.

Lemma faithful_answer (reply : pystr) : faithful (answer reply).
Proof. intros ? ? ? ? [H | []]. discriminate. Qed.

Lemma faithful_answer_mode (reply mode : pystr) : faithful (answer_mode reply mode).
Proof. intros ? ? ? ? [H | []]. discriminate. Qed.

Lemma faithful_call_backend (method path : pystr) (payload : option json) :
  faithful (call_backend method path payload).
Proof.
  destruct (call_backend_log method path payload) as [[a | e] E];
    unfold faithful; rewrite E; intros method' path' payload' e' [H | []];
    injection H as <- <- <-; unfold raising; rewrite E; congruence.
Qed.

Lemma faithful_bind (A B : Type) (m : M A) (k : A -> M B) :
  faithful m -> (forall a, faithful (k a)) -> faithful (bind m k).
Proof.
  unfold faithful, bind. destruct m as [[a | e] t]; intros Hm Hk; [|exact Hm].
  specialize (Hk a). destruct (k a) as [[b | e] t'];
    intros method path payload e' Hin; apply in_app_or in Hin;
    destruct Hin as [Hin | Hin]; eauto.
  intros Hr. exfalso. exact (Hm _ _ _ _ Hin Hr).
Qed.

(** The [try] blocks of the handlers report the failed call. *)
Lemma reports_try (body : M unit) (prefix : pystr) :
  In prefix failure_prefixes ->
  guarded body -> faithful body ->
  reports (try_except body (fun err => answer (prefix ++ str_exn err))).
Proof.
  unfold guarded, faithful, reports, try_except.
  destruct body as [[[] | e0] t0]; intros Hp Hg Hf t method path payload e E Hin Hr.
  - injection E as <-. exfalso. exact (Hf _ _ _ _ Hin Hr).
  - simpl in E. injection E as <-. apply in_app_or in Hin.
    destruct Hin as [Hin | [Hin | []]]; [|discriminate].
    rewrite (Hf _ _ _ _ Hin Hr). exists prefix. split; [exact Hp|].
    rewrite replies_app, Hg. reflexivity.
Qed.

Lemma reports_answer (reply : pystr) : reports (answer reply).
Proof.
  intros t ? ? ? ? E Hin. injection E as <-.
  destruct Hin as [Hin | []]. discriminate.
Qed.

#[local] Hint Resolve faithful_lift faithful_answer faithful_answer_mode
  faithful_call_backend : log.

Ltac report_steps :=
  apply reports_try;
  [ unfold failure_prefixes; simpl; tauto
  | log_steps
  | repeat first
      [ apply faithful_bind; [auto with log | intros ?]
      | progress auto with log
      | match goal with |- faithful (if ?b then _ else _) => destruct b end ] ].

Lemma start_with_param_reports (m : message) : reports (start_with_param m).
Proof.
  unfold start_with_param.
  destruct ((1 <? List.length (split_ws1 (text_or_empty m)))%nat);
    [destruct (index (split_ws1 (text_or_empty m)) 1) as [arg | e]|].
  - rewrite bind_lift_ok.
    destruct (startswith arg (lit "login_")); [report_steps | apply reports_answer].
  - intros t ? ? ? ? E. discriminate.
  - rewrite bind_lift_ok. apply reports_answer.
Qed.

Lemma status_reports (m : message) : reports (status m).
Proof. unfold status. report_steps. Qed.

Lemma accounts_reports (m : message) : reports (accounts m).
Proof. unfold accounts. report_steps. Qed.

Lemma codes_reports (m : message) : reports (codes m).
Proof. unfold codes. report_steps. Qed.

Lemma confirm_reports (m : message) : reports (confirm m).
Proof.
  unfold confirm.
  destruct (List.length (split_ws1 (text_or_empty m)) <? 2)%nat eqn:E;
    [apply reports_answer|].
  destruct (index_second _ E) as [part ->]. rewrite bind_lift_ok. report_steps.
Qed.

Lemma link_reports (code : pystr) (m : message) : reports (link code m).
Proof. unfold link. report_steps. Qed.

Lemma fallback_reports (m : message) : reports (fallback m).
Proof.
  unfold fallback.
  destruct (startswith (strip (text_or_empty m)) (lit "/add=")) eqn:E1.
  - destruct (add_equals_second _ E1) as (r & _ & ->).
    rewrite bind_lift_ok. apply link_reports.
  - destruct (startswith (strip (text_or_empty m)) (lit "/add ")) eqn:E2.
    + destruct (add_space_second _ E2) as [part ->].
      rewrite bind_lift_ok. apply link_reports.
    + apply reports_answer.
Qed.

(** Whatever the message: a request of the log that raised is reported in
    the one reply, after the failure prefix of the handler. *)
Lemma dispatch_reports (m : message) : reports (dispatch m).
Proof.
  unfold dispatch.
  repeat match goal with |- context [if ?b then _ else _] => destruct b end.
  - apply start_with_param_reports.
  - apply reports_answer.
  - apply status_reports.
  - apply accounts_reports.
  - apply codes_reports.
  - apply confirm_reports.
  - apply fallback_reports.
Qed.

(** ** Resolving the confirmation *)

Lemma cut_none (sep : char) (s : pystr) :
  contains sep s = false -> cut sep s = None.
Proof.
  induction s as [|c s IH]; simpl; [reflexivity|].
  destruct (N.eqb c sep); simpl; [discriminate|].
  intros H. rewrite (IH H). reflexivity.
Qed.

Lemma cut_contains (sep : char) (s l r : pystr) :
  cut sep s = Some (l, r) -> contains sep s = true.
Proof.
  destruct (contains sep s) eqn:E; [reflexivity|].
  rewrite (cut_none _ _ E). discriminate.
Qed.

(** The bare loop stops at the first item whose confirmation id is the
    identifier, whatever comes after it. *)
Lemma find_bare_first (before after : list json) (item c : json) (identifier : pystr) :
  Forall (fun x => exists c', subscript x (lit "confirmation_id") = Ok c' /\
                              py_str c' <> identifier) before ->
  subscript item (lit "confirmation_id") = Ok c ->
  py_str c = identifier ->
  find_bare identifier (before ++ item :: after) = Ok item.
Proof.
  intros Hb Hi Hc. induction Hb as [|x before (c' & Hx & Hne) _ IH]; simpl.
  - rewrite Hi. simpl. rewrite Hc, str_eqb_refl. reflexivity.
  - rewrite Hx. simpl. destruct (str_eqb (py_str c') identifier) eqn:E.
    + apply str_eqb_eq in E. contradiction.
    + exact IH.
Qed.

(** What the pair loop returns is [None] or an item of the list whose two
    ids both match. *)
Lemma find_pair_sound (left right : pystr) (items : list json) (chosen : json) :
  find_pair left right items = Ok chosen ->
  chosen = JNull \/
  exists account confirmation,
    In chosen items /\
    subscript chosen (lit "account_id") = Ok account /\ py_str account = left /\
    subscript chosen (lit "confirmation_id") = Ok confirmation /\
    py_str confirmation = right.
Proof.
  induction items as [|item rest IH]; simpl; intros H.
  - left. congruence.
  - assert (Hrest : find_pair left right rest = Ok chosen ->
                    chosen = JNull \/
                    exists account confirmation,
                      In chosen (item :: rest) /\
                      subscript chosen (lit "account_id") = Ok account /\
                      py_str account = left /\
                      subscript chosen (lit "confirmation_id") = Ok confirmation /\
                      py_str confirmation = right).
    { intros H'. destruct (IH H') as [-> | (a & c & Hin & Hrest)]; [now left|].
      right. exists a, c. split; [right; exact Hin | exact Hrest]. }
    destruct (subscript item (lit "account_id")) as [a|] eqn:Ea; simpl in H;
      [|discriminate].
    destruct (str_eqb (py_str a) left) eqn:El; [|auto].
    destruct (subscript item (lit "confirmation_id")) as [c|] eqn:Ec; simpl in H;
      [|discriminate].
    destruct (str_eqb (py_str c) right) eqn:Er; [|auto].
    injection H as <-. right. exists a, c.
    apply str_eqb_eq in El, Er. repeat split; auto.
Qed.

(** C2.  A bare identifier (no colon) selects the earliest item whose
    confirmation id is that identifier: the items before it do not match,
    and whatever follows it, duplicates of the same confirmation id
    included, is never looked at. *)
Theorem resolve_bare_first_match
    (before after : list json) (item c : json) (identifier : pystr) :
  contains (chr ":") identifier = false ->
  Forall (fun x => exists c', subscript x (lit "confirmation_id") = Ok c' /\
                              py_str c' <> identifier) before ->
  subscript item (lit "confirmation_id") = Ok c ->
  py_str c = identifier ->
  resolve (JList (before ++ item :: after)) identifier = Ok item.
Proof.
  intros Hbare Hb Hi Hc. unfold resolve. rewrite Hbare. simpl.
  eapply find_bare_first; eassumption.
Qed.

(** C3.  With a colon in the identifier, the part before the first colon
    and the part after it are both compared: what [resolve] returns is
    [None] (not found) or an item of the list whose account id reads as
    the first part and whose confirmation id reads as the second. *)
Theorem resolve_pair_needs_both
    (items chosen : json) (identifier left right : pystr) :
  cut (chr ":") identifier = Some (left, right) ->
  resolve items identifier = Ok chosen ->
  chosen = JNull \/
  exists its account confirmation,
    iterate items = Ok its /\ In chosen its /\
    subscript chosen (lit "account_id") = Ok account /\ py_str account = left /\
    subscript chosen (lit "confirmation_id") = Ok confirmation /\
    py_str confirmation = right.
Proof.
  intros Hcut H. unfold resolve in H.
  rewrite (cut_contains _ _ Hcut) in H. unfold split_sep1 in H.
  rewrite Hcut in H. simpl in H.
  destruct (iterate items) as [its|] eqn:Eits; simpl in H; [|discriminate].
  destruct (find_pair_sound _ _ _ H) as [-> | (a & c & Hin & Hrest)]; [now left|].
  right. exists its, a, c. split; [reflexivity|]. split; assumption.
Qed.

(** ** The backend client *)

(** A response that decodes and whose status is below 400 is returned. *)
Lemma call_backend_success
    (method path : pystr) (payload : option json) (r : response) (data : json) :
  backend method path payload = Responded r ->
  content r = Decoded data ->
  (http_status r >=? 400)%Z = false ->
  call_backend method path payload = (Ok data, [Request method path payload]).
Proof.
  intros Hb Hc Hs. unfold call_backend. rewrite Hb. simpl.
  rewrite Hc. simpl. rewrite Hs. reflexivity.
Qed.

(** A status of 400 or more raises [RuntimeError] with the [message] field
    of a dict, [None] when the dict has no such key. *)
Lemma call_backend_error_dict
    (method path : pystr) (payload : option json) (r : response)
    (d : list (pystr * json)) :
  backend method path payload = Responded r ->
  content r = Decoded (JDict d) ->
  (400 <= http_status r)%Z ->
  call_backend method path payload =
    (Raise (RuntimeError match lookup (lit "message") d with
                         | Some x => x
                         | None => JNull
                         end),
     [Request method path payload]).
Proof.
  intros Hb Hc Hs. unfold call_backend. rewrite Hb. simpl.
  rewrite Hc. simpl.
  replace (http_status r >=? 400)%Z with true by (symmetry; apply Z.geb_le; lia).
  reflexivity.
Qed.

(** A body that does not decode raises before the status is looked at. *)
Lemma call_backend_undecodable
    (method path : pystr) (payload : option json) (r : response) (why : pystr) :
  backend method path payload = Responded r ->
  content r = Undecodable why ->
  call_backend method path payload =
    (Raise (LibraryError why), [Request method path payload]).
Proof.
  intros Hb Hc. unfold call_backend. rewrite Hb. simpl. rewrite Hc. reflexivity.
Qed.

(** C6.  A response with status 400 or more whose body decodes to a dict
    with a [message] key makes [call_backend] raise [RuntimeError] with
    that field's value, whose [str] is the [str] of the value (the text
    itself when the value is a string).  Whatever the message being
    handled, if that request is in the log, the one reply is a failure
    prefix followed by that text, not the JSON and not a success reply. *)
Theorem backend_error_carries_message
    (method path : pystr) (payload : option json) (r : response)
    (d : list (pystr * json)) (v : json) :
  backend method path payload = Responded r ->
  (400 <= http_status r)%Z ->
  content r = Decoded (JDict d) ->
  lookup (lit "message") d = Some v ->
  call_backend method path payload =
    (Raise (RuntimeError v), [Request method path payload]) /\
  str_exn (RuntimeError v) = py_str v /\
  (forall s, v = JStr s -> py_str v = s) /\
  (forall m t,
      dispatch m = (Ok tt, t) ->
      In (Request method path payload) t ->
      exists prefix,
        In prefix failure_prefixes /\ replies t = [prefix ++ py_str v]).
Proof.
  intros Hb Hs Hc Hv.
  assert (H : call_backend method path payload =
              (Raise (RuntimeError v), [Request method path payload])).
  { rewrite (call_backend_error_dict Hb Hc Hs), Hv. reflexivity. }
  split; [exact H|]. split; [reflexivity|]. split.
  - intros s ->. reflexivity.
  - intros m t E Hin. exact (@dispatch_reports m t method path payload _ E Hin H).
Qed.

(** C7, as the program has it.  The body is first stripped of white
    space.  When something is left and the JSON decoder rejects it, at
    status 200 or any other, [call_backend] raises and never returns:
    whatever the message being handled, if that request is in the log, the
    one reply is a failure prefix followed by the decoder's text, and the
    success reply was skipped.  When nothing is left (an empty or blank
    body), nothing is decoded: at a status below 400 the call returns
    [None] like any other success. *)
Theorem rejected_body_is_failure
    (loads : pystr -> body) (raw : pystr)
    (method path : pystr) (payload : option json) (r : response) :
  backend method path payload = Responded r ->
  content r = response_json loads raw ->
  (forall why,
      bytes_strip raw <> [] ->
      loads (bytes_strip raw) = Undecodable why ->
      call_backend method path payload =
        (Raise (LibraryError why), [Request method path payload]) /\
      (forall m t,
          dispatch m = (Ok tt, t) ->
          In (Request method path payload) t ->
          exists prefix,
            In prefix failure_prefixes /\ replies t = [prefix ++ why])) /\
  (bytes_strip raw = [] ->
   (http_status r >=? 400)%Z = false ->
   call_backend method path payload = (Ok JNull, [Request method path payload])).
Proof.
  intros Hb Hc. unfold response_json in Hc. split.
  - intros why Hne Hl.
    destruct (bytes_strip raw) as [|c stripped]; [congruence|].
    rewrite Hl in Hc.
    pose proof (call_backend_undecodable Hb Hc) as H.
    split; [exact H|].
    intros m t E Hin. exact (@dispatch_reports m t method path payload _ E Hin H).
  - intros Hblank Hs. rewrite Hblank in Hc.
    exact (call_backend_success Hb Hc Hs).
Qed.

(** C10.  A response with status 400 or more whose body decodes to a dict
    without a [message] key raises [RuntimeError(None)]: the reply shows
    the text [None] after the failure prefix, not the dict. *)
Theorem backend_error_without_message
    (method path : pystr) (payload : option json) (r : response)
    (d : list (pystr * json)) :
  backend method path payload = Responded r ->
  (400 <= http_status r)%Z ->
  content r = Decoded (JDict d) ->
  lookup (lit "message") d = None ->
  call_backend method path payload =
    (Raise (RuntimeError JNull), [Request method path payload]) /\
  str_exn (RuntimeError JNull) = lit "None" /\
  (forall m t,
      dispatch m = (Ok tt, t) ->
      In (Request method path payload) t ->
      exists prefix,
        In prefix failure_prefixes /\ replies t = [prefix ++ lit "None"]).
Proof.
  intros Hb Hs Hc Hv.
  assert (H : call_backend method path payload =
              (Raise (RuntimeError JNull), [Request method path payload])).
  { rewrite (call_backend_error_dict Hb Hc Hs), Hv. reflexivity. }
  split; [exact H|]. split; [reflexivity|].
  intros m t E Hin. exact (@dispatch_reports m t method path payload _ E Hin H).
Qed.

(** ** The confirm handler *)

(** The usage branch of [confirm]: fewer than two parts, no request. *)
Lemma confirm_short (m : message) :
  (List.length (split_ws1 (text_or_empty m)) <? 2)%nat = true ->
  confirm m = (Ok tt, [Answer confirm_usage None]).
Proof. intros H. unfold confirm. rewrite H. reflexivity. Qed.

(** C5.  When the text is one word followed by white space at most,
    [confirm] replies with the usage text and the log holds no backend
    request; when that word is [/confirm], the dispatcher routes the
    message to [confirm], so that this is all that happens. *)
Theorem confirm_without_argument (m : message) (w ws : pystr) :
  text m = Some (w ++ ws) ->
  forallb (fun c => negb (isspace c)) w = true ->
  forallb isspace ws = true ->
  confirm m = (Ok tt, [Answer confirm_usage None]) /\
  (w = lit "/confirm" -> dispatch m = (Ok tt, [Answer confirm_usage None])).
Proof.
  intros Ht Hw Hws.
  assert (Hc : confirm m = (Ok tt, [Answer confirm_usage None])).
  { apply confirm_short. unfold text_or_empty. rewrite Ht.
    destruct w as [|x w].
    - unfold split_ws1. simpl app. rewrite lstrip_all_spaces by exact Hws.
      reflexivity.
    - rewrite split_ws1_single; [reflexivity | discriminate | exact Hw | exact Hws]. }
  split; [exact Hc|]. intros ->.
  assert (Hsplit : split_ws1 (lit "/confirm" ++ ws) = [lit "/confirm"]).
  { apply split_ws1_single; [discriminate | reflexivity | exact Hws]. }
  assert (Hcmd : forall name deep,
             command name deep m = str_eqb (lit "confirm") name && negb deep).
  { intros name deep. unfold command. rewrite Ht.
    change (match lit "/confirm" ++ ws with
            | [] => match caption m with Some t => t | None => [] end
            | c :: t => c :: t
            end) with (lit "/confirm" ++ ws).
    rewrite Hsplit. simpl. destruct deep; simpl;
      rewrite ?andb_false_r, ?andb_true_r; reflexivity. }
  unfold dispatch. rewrite !Hcmd. simpl. exact Hc.
Qed.

(** C4.  When the message has an argument and the backend's list of
    pending confirmations is empty (or absent, or any value [not] takes
    for empty), [confirm] makes the one GET request and replies that
    nothing is pending: the argument is not compared with anything and no
    POST follows. *)
Theorem confirm_empty_pending
    (m : message) (u : user) (r : response) (pending items : json) :
  (List.length (split_ws1 (text_or_empty m)) <? 2)%nat = false ->
  from_user m = Some u ->
  backend (lit "GET")
          (lit "/api/telegram/bot/confirms/" ++ str_of_int (user_id u)) None
    = Responded r ->
  (http_status r >=? 400)%Z = false ->
  content r = Decoded pending ->
  get_default pending (lit "items") (JList []) = Ok items ->
  truthy items = false ->
  confirm m =
    (Ok tt,
     [Request (lit "GET")
              (lit "/api/telegram/bot/confirms/" ++ str_of_int (user_id u)) None;
      Answer (lit "No pending confirmations.") None]).
Proof.
  intros Hlen Hu Hb Hs Hc Hitems Hempty. unfold confirm. rewrite Hlen.
  destruct (index_second _ Hlen) as [part ->].
  unfold sender_id. rewrite Hu.
  unfold try_except, bind, lift. cbn [py_str].
  rewrite (call_backend_success Hb Hc Hs), Hitems, Hempty. reflexivity.
Qed.

(** ** The start command *)

(** C8.  A text made of [/start], white space and [login_] followed by any
    [code] passes the deep-link filter, and the one request of the handler
    is the oauth POST whose [code] field is exactly [code]: the prefix is
    removed once, at the front, and nothing is trimmed from [code]. *)
Theorem start_login_code (m : message) (u : user) (ws code : pystr) :
  text m = Some (lit "/start" ++ ws ++ lit "login_" ++ code) ->
  ws <> [] ->
  forallb isspace ws = true ->
  from_user m = Some u ->
  command (lit "start") true m = true /\
  exists reply,
    dispatch m =
      (Ok tt,
       [Request (lit "POST") (lit "/api/telegram/bot/oauth")
          (Some (JDict [(lit "code", JStr code);
                        (lit "telegramUserId", JStr (str_of_int (user_id u)));
                        (lit "username", match username u with
                                         | Some n => JStr n
                                         | None => JNull
                                         end)]));
        Answer reply None]).
Proof.
  intros Ht Hne Hws Hu.
  assert (Hsplit : split_ws1 (lit "/start" ++ ws ++ lit "login_" ++ code)
                   = [lit "/start"; lit "login_" ++ code]).
  { apply (@split_ws1_pair (lit "/start") ws 108%N (lit "ogin_" ++ code));
      [discriminate | reflexivity | exact Hne | exact Hws | reflexivity]. }
  assert (Hcmd : command (lit "start") true m = true).
  { unfold command. rewrite Ht.
    change (match lit "/start" ++ ws ++ lit "login_" ++ code with
            | [] => match caption m with Some t => t | None => [] end
            | c :: t => c :: t
            end) with (lit "/start" ++ ws ++ lit "login_" ++ code).
    rewrite Hsplit. reflexivity. }
  split; [exact Hcmd|].
  unfold dispatch. rewrite Hcmd.
  unfold start_with_param, text_or_empty. rewrite Ht, Hsplit.
  cbn [List.length Nat.ltb Nat.leb index nth_error lift bind app].
  rewrite startswith_app, replace1_prefix.
  unfold identity_payload, sender_id, sender_username. rewrite Hu.
  cbn [rbind lift py_str].
  match goal with
  | |- context [call_backend ?a ?b ?c] =>
      destruct (call_backend_log a b c) as [[[] | e] E]
  end; unfold try_except, bind; rewrite E; cbn; eauto.
Qed.

(** C9, as the program has it.  A start command whose argument does not
    begin with [login_] makes no backend request and gets one static
    reply: the list of commands when there is an argument, the short
    greeting of the bare command when there is none. *)
Theorem start_without_login (m : message) (ws arg : pystr) :
  text m = Some (lit "/start" ++ ws ++ arg) ->
  forallb isspace ws = true ->
  match arg with
  | [] => True
  | c :: _ => isspace c = false /\ ws <> []
  end ->
  startswith arg (lit "login_") = false ->
  dispatch m =
    (Ok tt, [Answer match arg with
                    | [] => start_greeting
                    | _ :: _ => start_help
                    end None]).
Proof.
  intros Ht Hws Harg Hlogin.
  assert (Htext : match lit "/start" ++ ws ++ arg with
                  | [] => match caption m with Some t => t | None => [] end
                  | c :: t => c :: t
                  end = lit "/start" ++ ws ++ arg) by reflexivity.
  destruct arg as [|c arg].
  - assert (Hsplit : split_ws1 (lit "/start" ++ ws ++ []) = [lit "/start"]).
    { rewrite app_nil_r.
      apply split_ws1_single; [discriminate | reflexivity | exact Hws]. }
    unfold dispatch, command. rewrite Ht, Htext, Hsplit. reflexivity.
  - destruct Harg as [Hc Hne].
    assert (Hsplit : split_ws1 (lit "/start" ++ ws ++ c :: arg)
                     = [lit "/start"; c :: arg]).
    { apply split_ws1_pair;
        [discriminate | reflexivity | exact Hne | exact Hws | exact Hc]. }
    assert (Hcmd : command (lit "start") true m = true).
    { unfold command. rewrite Ht, Htext, Hsplit. reflexivity. }
    unfold dispatch. rewrite Hcmd.
    unfold start_with_param, text_or_empty. rewrite Ht, Hsplit.
    cbn [List.length Nat.ltb Nat.leb index nth_error lift bind app].
    rewrite Hlogin. reflexivity.
Qed.

(** ** The shape of every log *)

(** The argument of [start_with_param] is always defined. *)
Lemma start_arg_defined (m : message) :
  exists arg,
    (if (1 <? List.length (split_ws1 (text_or_empty m)))%nat
     then index (split_ws1 (text_or_empty m)) 1 else Ok []) = Ok arg.
Proof.
  destruct (1 <? List.length (split_ws1 (text_or_empty m)))%nat eqn:E; [|eauto].
  apply index_second. apply Nat.ltb_lt in E. apply Nat.ltb_ge. lia.
Qed.

Lemma quiet_nil (n : nat) : quiet n [].
Proof. split; [reflexivity | simpl; lia]. Qed.

Lemma quiet_cons (n : nat) (method path : pystr) (payload : option json)
    (t : list event) :
  quiet n t -> quiet (S n) (Request method path payload :: t).
Proof. intros [Hr Hn]. split; [exact Hr | simpl; lia]. Qed.

Lemma tidy_answer (n : nat) (reply : pystr) : tidy n (answer reply).
Proof. exists [], reply, None. split; [reflexivity | apply quiet_nil]. Qed.

Lemma tidy_answer_mode (n : nat) (reply mode : pystr) :
  tidy n (answer_mode reply mode).
Proof. exists [], reply, (Some mode). split; [reflexivity | apply quiet_nil]. Qed.

Lemma tidy_bind_lift (A : Type) (n : nat) (r : res A) (k : A -> M unit) :
  (forall a, tidy n (k a)) -> tidy n (bind (lift r) k).
Proof.
  intros Hk. destruct r as [a | e].
  - rewrite bind_lift_ok. apply Hk.
  - apply quiet_nil.
Qed.

Lemma tidy_bind_call (n : nat) (method path : pystr) (payload : option json)
    (k : json -> M unit) :
  (forall a, tidy n (k a)) ->
  tidy (S n) (bind (call_backend method path payload) k).
Proof.
  intros Hk. destruct (call_backend_log method path payload) as [[a | e] E];
    unfold bind; rewrite E.
  - specialize (Hk a). unfold tidy in *. destruct (k a) as [[[] | e] t].
    + destruct Hk as (reqs & reply & mode & -> & Hq).
      exists (Request method path payload :: reqs), reply, mode.
      split; [reflexivity | apply quiet_cons; exact Hq].
    + apply quiet_cons. exact Hk.
  - apply quiet_cons. apply quiet_nil.
Qed.

Lemma shaped_answer (n : nat) (reply : pystr) : shaped n (answer reply).
Proof. exists [], reply, None. split; [reflexivity | apply quiet_nil]. Qed.

Lemma shaped_try (n : nat) (body : M unit) (f : exn -> pystr) :
  tidy n body -> shaped n (try_except body (fun err => answer (f err))).
Proof.
  unfold tidy, shaped, try_except. destruct body as [[[] | e] t]; intros H.
  - destruct H as (reqs & reply & mode & -> & Hq). exists reqs, reply, mode.
    split; [reflexivity | exact Hq].
  - exists t, (f e), None. split; [reflexivity | exact H].
Qed.

Ltac shape_steps :=
  repeat first
    [ apply shaped_try
    | apply tidy_bind_lift; intros ?
    | apply tidy_bind_call; intros ?
    | apply tidy_answer
    | apply tidy_answer_mode
    | match goal with |- tidy _ (if ?b then _ else _) => destruct b end ].

Lemma link_shaped (code : pystr) (m : message) : shaped 2 (link code m).
Proof. unfold link. shape_steps. Qed.

(** While every send completes: the log of the dispatcher is at most two
    backend requests followed by the one reply. *)
Lemma dispatch_log_shape (m : message) :
  exists reqs reply mode,
    dispatch m = (Ok tt, reqs ++ [Answer reply mode]) /\
    forallb is_request reqs = true /\
    (List.length reqs <= 2)%nat.
Proof.
  change (shaped 2 (dispatch m)). unfold dispatch.
  repeat match goal with |- context [if ?b then _ else _] => destruct b end.
  - unfold start_with_param. destruct (start_arg_defined m) as [arg ->].
    rewrite bind_lift_ok.
    destruct (startswith arg (lit "login_")); [shape_steps | apply shaped_answer].
  - apply shaped_answer.
  - unfold status. shape_steps.
  - unfold accounts. shape_steps.
  - unfold codes. shape_steps.
  - unfold confirm.
    destruct (List.length (split_ws1 (text_or_empty m)) <? 2)%nat eqn:E;
      [apply shaped_answer|].
    destruct (index_second _ E) as [part ->]. rewrite bind_lift_ok. shape_steps.
  - unfold fallback.
    destruct (startswith (strip (text_or_empty m)) (lit "/add=")) eqn:E1.
    + destruct (add_equals_second _ E1) as (r & _ & ->).
      rewrite bind_lift_ok. apply link_shaped.
    + destruct (startswith (strip (text_or_empty m)) (lit "/add ")) eqn:E2.
      * destruct (add_space_second _ E2) as [part ->].
        rewrite bind_lift_ok. apply link_shaped.
      * apply shaped_answer.
Qed.

(** ** Messages without a sender, and calls without a usable answer *)

Lemma link_no_sender (code : pystr) (m : message) :
  from_user m = None -> exists reply, link code m = (Ok tt, [Answer reply None]).
Proof.
  intros H. unfold link, identity_payload, sender_id. rewrite H.
  eexists. reflexivity.
Qed.

(** X2.  A message that has no sender ([from_user] is [None]) never
    reaches the backend: every handler that needs the sender's id fails
    on reading it, inside its [try], and the log is the one reply. *)
Theorem no_sender_no_request (m : message) :
  from_user m = None ->
  exists reply, dispatch m = (Ok tt, [Answer reply None]).
Proof.
  intros H. unfold dispatch.
  repeat match goal with |- context [if ?b then _ else _] => destruct b end.
  - unfold start_with_param. destruct (start_arg_defined m) as [arg ->].
    rewrite bind_lift_ok. destruct (startswith arg (lit "login_")).
    + unfold identity_payload, sender_id. rewrite H. eexists. reflexivity.
    + eexists. reflexivity.
  - eexists. reflexivity.
  - unfold status, sender_id. rewrite H. eexists. reflexivity.
  - unfold accounts, sender_id. rewrite H. eexists. reflexivity.
  - unfold codes, sender_id. rewrite H. eexists. reflexivity.
  - unfold confirm.
    destruct (List.length (split_ws1 (text_or_empty m)) <? 2)%nat eqn:E;
      [eexists; reflexivity|].
    destruct (index_second _ E) as [part ->]. rewrite bind_lift_ok.
    unfold sender_id. rewrite H. eexists. reflexivity.
  - unfold fallback.
    destruct (startswith (strip (text_or_empty m)) (lit "/add=")) eqn:E1.
    + destruct (add_equals_second _ E1) as (r & _ & ->).
      rewrite bind_lift_ok. apply link_no_sender. exact H.
    + destruct (startswith (strip (text_or_empty m)) (lit "/add ")) eqn:E2.
      * destruct (add_space_second _ E2) as [part ->].
        rewrite bind_lift_ok. apply link_no_sender. exact H.
      * eexists. reflexivity.
Qed.

(** X3.  When the request gets no response at all (time-out, refused
    connection), [call_backend] raises the HTTP layer's exception and,
    whatever the message being handled, the one reply is a failure prefix
    followed by that exception's text. *)
Theorem no_response_is_reported
    (method path : pystr) (payload : option json) (why : pystr) :
  backend method path payload = NoResponse why ->
  call_backend method path payload =
    (Raise (LibraryError why), [Request method path payload]) /\
  (forall m t,
      dispatch m = (Ok tt, t) ->
      In (Request method path payload) t ->
      exists prefix,
        In prefix failure_prefixes /\ replies t = [prefix ++ why]).
Proof.
  intros Hb.
  assert (H : call_backend method path payload =
              (Raise (LibraryError why), [Request method path payload])).
  { unfold call_backend. rewrite Hb. reflexivity. }
  split; [exact H|].
  intros m t E Hin. exact (@dispatch_reports m t method path payload _ E Hin H).
Qed.

(** X4.  A response with status 400 or more whose body decodes to
    something that is not a dict (a string, a list, a number, [null])
    raises [RuntimeError(str(data))]: the one reply is a failure prefix
    followed by [str] of the whole body. *)
Theorem backend_error_other_body
    (method path : pystr) (payload : option json) (r : response) (data : json) :
  backend method path payload = Responded r ->
  (400 <= http_status r)%Z ->
  content r = Decoded data ->
  (forall d, data <> JDict d) ->
  call_backend method path payload =
    (Raise (RuntimeError (JStr (py_str data))), [Request method path payload]) /\
  (forall m t,
      dispatch m = (Ok tt, t) ->
      In (Request method path payload) t ->
      exists prefix,
        In prefix failure_prefixes /\ replies t = [prefix ++ py_str data]).
Proof.
  intros Hb Hs Hc Hd.
  assert (H : call_backend method path payload =
              (Raise (RuntimeError (JStr (py_str data))),
               [Request method path payload])).
  { unfold call_backend. rewrite Hb. simpl. rewrite Hc. simpl.
    replace (http_status r >=? 400)%Z with true by (symmetry; apply Z.geb_le; lia).
    destruct data; try reflexivity. exfalso. exact (Hd _ eq_refl). }
  split; [exact H|].
  intros m t E Hin. exact (@dispatch_reports m t method path payload _ E Hin H).
Qed.

(** ** Listing accounts and codes *)

Lemma account_lines_rows (its : list json) (rows lines : list pystr) :
  Forall2 account_row its rows ->
  account_lines its lines = Ok (lines ++ rows).
Proof.
  intros H. revert lines.
  induction H as [|item row its rows (i & a & s & Hi & Ha & Hs & ->) _ IH];
    intros lines; simpl.
  - rewrite app_nil_r. reflexivity.
  - rewrite Hi, Ha, Hs. simpl. rewrite IH, <- app_assoc. reflexivity.
Qed.

Lemma code_lines_rows (its : list json) (rows lines : list pystr) :
  Forall2 code_row its rows ->
  code_lines its lines = Ok (lines ++ rows).
Proof.
  intros H. revert lines.
  induction H as [|item row its rows (a & c & Ha & Hc & ->) _ IH];
    intros lines; simpl.
  - rewrite app_nil_r. reflexivity.
  - rewrite Ha, Hc. simpl. rewrite IH, <- app_assoc. reflexivity.
Qed.

(** The loop of [accounts] stops at the first item it cannot read. *)
Lemma account_lines_stops
    (before after : list json) (bad : json) (rows lines : list pystr) (e : exn) :
  Forall2 account_row before rows ->
  subscript bad (lit "id") = Raise e \/
  (exists i, subscript bad (lit "id") = Ok i /\
             subscript bad (lit "alias") = Raise e) ->
  account_lines (before ++ bad :: after) lines = Raise e.
Proof.
  intros H Hbad. revert lines.
  induction H as [|item row its rows (i & a & s & Hi & Ha & Hs & ->) _ IH];
    intros lines; simpl.
  - destruct Hbad as [-> | (i & -> & ->)]; reflexivity.
  - rewrite Hi, Ha, Hs. simpl. apply IH.
Qed.

(** X5.  [/status] says OK for any response below 400 whose body decodes,
    whatever that body is: the data is not looked at. *)
Theorem status_ok (m : message) (u : user) (r : response) (data : json) :
  from_user m = Some u ->
  backend (lit "GET")
          (lit "/api/telegram/bot/accounts/" ++ str_of_int (user_id u)) None
    = Responded r ->
  (http_status r >=? 400)%Z = false ->
  content r = Decoded data ->
  status m =
    (Ok tt,
     [Request (lit "GET")
              (lit "/api/telegram/bot/accounts/" ++ str_of_int (user_id u)) None;
      Answer (lit "Backend connection: OK") None]).
Proof.
  intros Hu Hb Hs Hc. unfold status, sender_id. rewrite Hu.
  unfold try_except, bind, lift. cbn [py_str].
  rewrite (call_backend_success Hb Hc Hs). reflexivity.
Qed.

(** X6.  With a non-empty list of well-formed items, [accounts] replies
    with the heading and one line per item, in the order of the list,
    joined by line feeds. *)
Theorem accounts_lists_items
    (m : message) (u : user) (r : response) (d : list (pystr * json))
    (its : list json) (rows : list pystr) :
  from_user m = Some u ->
  backend (lit "GET")
          (lit "/api/telegram/bot/accounts/" ++ str_of_int (user_id u)) None
    = Responded r ->
  (http_status r >=? 400)%Z = false ->
  content r = Decoded (JDict d) ->
  lookup (lit "items") d = Some (JList its) ->
  its <> [] ->
  Forall2 account_row its rows ->
  accounts m =
    (Ok tt,
     [Request (lit "GET")
              (lit "/api/telegram/bot/accounts/" ++ str_of_int (user_id u)) None;
      Answer (join nl (lit "Your Steam accounts:" :: rows)) None]).
Proof.
  intros Hu Hb Hs Hc Hitems Hne Hrows. unfold accounts, sender_id. rewrite Hu.
  unfold try_except, bind, lift. cbn [py_str].
  rewrite (call_backend_success Hb Hc Hs). unfold get_default. rewrite Hitems.
  destruct its as [|item its]; [congruence|].
  cbn [truthy negb iterate rbind].
  rewrite (account_lines_rows [lit "Your Steam accounts:"] Hrows). reflexivity.
Qed.

(** X7.  When the list of accounts is empty, absent, or any value [not]
    takes for empty, [accounts] says that no account is linked. *)
Theorem accounts_empty
    (m : message) (u : user) (r : response) (data items : json) :
  from_user m = Some u ->
  backend (lit "GET")
          (lit "/api/telegram/bot/accounts/" ++ str_of_int (user_id u)) None
    = Responded r ->
  (http_status r >=? 400)%Z = false ->
  content r = Decoded data ->
  get_default data (lit "items") (JList []) = Ok items ->
  truthy items = false ->
  accounts m =
    (Ok tt,
     [Request (lit "GET")
              (lit "/api/telegram/bot/accounts/" ++ str_of_int (user_id u)) None;
      Answer (lit "No Steam accounts linked.") None]).
Proof.
  intros Hu Hb Hs Hc Hitems Hempty. unfold accounts, sender_id. rewrite Hu.
  unfold try_except, bind, lift. cbn [py_str].
  rewrite (call_backend_success Hb Hc Hs), Hitems, Hempty. reflexivity.
Qed.

(** X8.  One item [accounts] cannot read spoils the whole listing: when
    the first such item has no [id], or has an [id] but no [alias] (or is
    no dict at all), the reply is the failure text with that exception,
    and none of the lines of the items before it. *)
Theorem accounts_unreadable_item
    (m : message) (u : user) (r : response) (d : list (pystr * json))
    (before after : list json) (bad : json) (rows : list pystr) (e : exn) :
  from_user m = Some u ->
  backend (lit "GET")
          (lit "/api/telegram/bot/accounts/" ++ str_of_int (user_id u)) None
    = Responded r ->
  (http_status r >=? 400)%Z = false ->
  content r = Decoded (JDict d) ->
  lookup (lit "items") d = Some (JList (before ++ bad :: after)) ->
  Forall2 account_row before rows ->
  subscript bad (lit "id") = Raise e \/
  (exists i, subscript bad (lit "id") = Ok i /\
             subscript bad (lit "alias") = Raise e) ->
  accounts m =
    (Ok tt,
     [Request (lit "GET")
              (lit "/api/telegram/bot/accounts/" ++ str_of_int (user_id u)) None;
      Answer (lit "Failed to fetch accounts: " ++ str_exn e) None]).
Proof.
  intros Hu Hb Hs Hc Hitems Hrows Hbad. unfold accounts, sender_id. rewrite Hu.
  unfold try_except, bind, lift. cbn [py_str].
  rewrite (call_backend_success Hb Hc Hs). unfold get_default. rewrite Hitems.
  assert (Ht : truthy (JList (before ++ bad :: after)) = true)
    by (destruct before; reflexivity).
  rewrite Ht. cbn [negb iterate rbind].
  rewrite (@account_lines_stops before after bad rows
             [lit "Your Steam accounts:"] e Hrows Hbad).
  reflexivity.
Qed.

(** X9.  With a non-empty list of well-formed items, [codes] replies
    with the heading and one line per item, each code between backquotes,
    and asks for Markdown rendering. *)
Theorem codes_lists_items
    (m : message) (u : user) (r : response) (d : list (pystr * json))
    (its : list json) (rows : list pystr) :
  from_user m = Some u ->
  backend (lit "GET")
          (lit "/api/telegram/bot/codes/" ++ str_of_int (user_id u)) None
    = Responded r ->
  (http_status r >=? 400)%Z = false ->
  content r = Decoded (JDict d) ->
  lookup (lit "items") d = Some (JList its) ->
  its <> [] ->
  Forall2 code_row its rows ->
  codes m =
    (Ok tt,
     [Request (lit "GET")
              (lit "/api/telegram/bot/codes/" ++ str_of_int (user_id u)) None;
      Answer (join nl (lit "Current Steam codes:" :: rows)) (Some (lit "Markdown"))]).
Proof.
  intros Hu Hb Hs Hc Hitems Hne Hrows. unfold codes, sender_id. rewrite Hu.
  unfold try_except, bind, lift. cbn [py_str].
  rewrite (call_backend_success Hb Hc Hs). unfold get_default. rewrite Hitems.
  destruct its as [|item its]; [congruence|].
  cbn [truthy negb iterate rbind].
  rewrite (code_lines_rows [lit "Current Steam codes:"] Hrows). reflexivity.
Qed.

(** A [null] or empty [steamid] shows as [no steamid]. *)
Lemma account_line_without_steamid (i alias steamid : json) :
  steamid = JNull \/ steamid = JStr [] ->
  account_line i alias steamid =
    lit "- [" ++ py_str i ++ lit "] " ++ py_str alias ++ lit " (no steamid)".
Proof.
  intros [-> | ->]; reflexivity.
Qed.

(** ** More on the confirm handler *)

Lemma find_bare_none (identifier : pystr) (its : list json) :
  Forall (fun x => exists c, subscript x (lit "confirmation_id") = Ok c /\
                             py_str c <> identifier) its ->
  find_bare identifier its = Ok JNull.
Proof.
  intros H. induction H as [|x its (c & Hx & Hne) _ IH]; simpl; [reflexivity|].
  rewrite Hx. simpl. destruct (str_eqb (py_str c) identifier) eqn:E; [|exact IH].
  apply str_eqb_eq in E. contradiction.
Qed.

Lemma find_bare_sound (identifier : pystr) (its : list json) (chosen : json) :
  find_bare identifier its = Ok chosen ->
  chosen = JNull \/
  In chosen its /\
  exists c, subscript chosen (lit "confirmation_id") = Ok c /\
            py_str c = identifier.
Proof.
  induction its as [|item rest IH]; simpl; intros H.
  - left. congruence.
  - destruct (subscript item (lit "confirmation_id")) as [c|] eqn:Ec; simpl in H;
      [|discriminate].
    destruct (str_eqb (py_str c) identifier) eqn:E.
    + injection H as <-. apply str_eqb_eq in E. right. split; [now left|].
      exists c. split; assumption.
    + destruct (IH H) as [-> | [Hin Hc]]; [now left|].
      right. split; [now right | exact Hc].
Qed.

(** What [resolve] returns is [None] or one of the items it was given. *)
Lemma resolve_listed (items chosen : json) (identifier : pystr) :
  resolve items identifier = Ok chosen ->
  chosen = JNull \/ exists its, iterate items = Ok its /\ In chosen its.
Proof.
  unfold resolve. intros H.
  destruct (contains (chr ":") identifier).
  - destruct (unpack2 (split_sep1 (chr ":") identifier)) as [[l r]|]; simpl in H;
      [|discriminate].
    destruct (iterate items) as [its|]; simpl in H; [|discriminate].
    destruct (find_pair_sound _ _ _ H) as [-> | (a & c & Hin & _)]; [now left|].
    right. exists its. split; [reflexivity | exact Hin].
  - destruct (iterate items) as [its|]; simpl in H; [|discriminate].
    destruct (find_bare_sound _ _ H) as [-> | [Hin _]]; [now left|].
    right. exists its. split; [reflexivity | exact Hin].
Qed.

Lemma find_pair_first
    (before after : list json) (item a c : json) (left right : pystr) :
  Forall (fun x => exists a', subscript x (lit "account_id") = Ok a' /\
                   (py_str a' <> left \/
                    exists c', subscript x (lit "confirmation_id") = Ok c' /\
                               py_str c' <> right)) before ->
  subscript item (lit "account_id") = Ok a -> py_str a = left ->
  subscript item (lit "confirmation_id") = Ok c -> py_str c = right ->
  find_pair left right (before ++ item :: after) = Ok item.
Proof.
  intros Hb Ha Hl Hc Hr.
  induction Hb as [|x before (a' & Hx & Hno) _ IH]; simpl.
  - rewrite Ha. simpl. rewrite Hl, str_eqb_refl, Hc. simpl.
    rewrite Hr, str_eqb_refl. reflexivity.
  - rewrite Hx. simpl. destruct (str_eqb (py_str a') left) eqn:El; [|exact IH].
    apply str_eqb_eq in El. destruct Hno as [Hno | (c' & Hc' & Hno)];
      [contradiction|].
    rewrite Hc'. simpl. destruct (str_eqb (py_str c') right) eqn:Er; [|exact IH].
    apply str_eqb_eq in Er. contradiction.
Qed.

(** X10.  An identifier [account:confirmation] selects the earliest item
    whose account id and confirmation id both match.  The items before it
    are passed over when their account id differs (their confirmation id
    is then not even read) or when their confirmation id differs; what
    follows the selected item is never looked at. *)
Theorem resolve_pair_first_match
    (before after : list json) (item a c : json) (identifier left right : pystr) :
  cut (chr ":") identifier = Some (left, right) ->
  Forall (fun x => exists a', subscript x (lit "account_id") = Ok a' /\
                   (py_str a' <> left \/
                    exists c', subscript x (lit "confirmation_id") = Ok c' /\
                               py_str c' <> right)) before ->
  subscript item (lit "account_id") = Ok a -> py_str a = left ->
  subscript item (lit "confirmation_id") = Ok c -> py_str c = right ->
  resolve (JList (before ++ item :: after)) identifier = Ok item.
Proof.
  intros Hcut Hb Ha Hl Hc Hr. unfold resolve.
  rewrite (cut_contains _ _ Hcut). unfold split_sep1. rewrite Hcut. simpl.
  eapply find_pair_first; eassumption.
Qed.

(** X11.  [/confirm id] with a bare [id] that matches the item [item] of
    the pending list, and none before it: after the GET, the handler posts
    the sender's id, the item's account id, the identifier and the item's
    nonce ([None] when it has none), and on a good response says that the
    confirmation was sent. *)
Theorem confirm_posts_first_match
    (m : message) (u : user) (w part : pystr)
    (r r' : response) (d item : list (pystr * json))
    (before after : list json) (account : Z) (c data : json) :
  split_ws1 (text_or_empty m) = [w; part] ->
  contains (chr ":") (strip part) = false ->
  from_user m = Some u ->
  backend (lit "GET")
          (lit "/api/telegram/bot/confirms/" ++ str_of_int (user_id u)) None
    = Responded r ->
  (http_status r >=? 400)%Z = false ->
  content r = Decoded (JDict d) ->
  lookup (lit "items") d = Some (JList (before ++ JDict item :: after)) ->
  Forall (fun x => exists c', subscript x (lit "confirmation_id") = Ok c' /\
                              py_str c' <> strip part) before ->
  lookup (lit "account_id") item = Some (JInt account) ->
  lookup (lit "confirmation_id") item = Some c ->
  py_str c = strip part ->
  backend (lit "POST") (lit "/api/telegram/bot/confirm")
    (Some (JDict [(lit "telegramUserId", JStr (str_of_int (user_id u)));
                  (lit "accountId", JInt account);
                  (lit "confirmationId", JStr (strip part));
                  (lit "nonce", match lookup (lit "nonce") item with
                                | Some n => n
                                | None => JNull
                                end)]))
    = Responded r' ->
  (http_status r' >=? 400)%Z = false ->
  content r' = Decoded data ->
  confirm m =
    (Ok tt,
     [Request (lit "GET")
              (lit "/api/telegram/bot/confirms/" ++ str_of_int (user_id u)) None;
      Request (lit "POST") (lit "/api/telegram/bot/confirm")
        (Some (JDict [(lit "telegramUserId", JStr (str_of_int (user_id u)));
                      (lit "accountId", JInt account);
                      (lit "confirmationId", JStr (strip part));
                      (lit "nonce", match lookup (lit "nonce") item with
                                    | Some n => n
                                    | None => JNull
                                    end)]));
      Answer confirm_sent None]).
Proof.
  intros Hparts Hbare Hu Hb Hs Hc Hitems Hbefore Hacc Hconf Hid Hb' Hs' Hc'.
  unfold confirm. rewrite Hparts. cbn [List.length Nat.ltb Nat.leb index nth_error].
  rewrite bind_lift_ok. unfold sender_id. rewrite Hu.
  unfold try_except, bind, lift. cbn [py_str].
  rewrite (call_backend_success Hb Hc Hs). unfold get_default. rewrite Hitems.
  assert (Ht : truthy (JList (before ++ JDict item :: after)) = true)
    by (destruct before; reflexivity).
  rewrite Ht. cbn [negb]. unfold resolve. rewrite Hbare. cbn [iterate rbind].
  rewrite (@find_bare_first before after (JDict item) c (strip part));
    [| exact Hbefore | simpl; rewrite Hconf; reflexivity | exact Hid].
  assert (Hti : truthy (JDict item) = true)
    by (destruct item; [discriminate | reflexivity]).
  rewrite Hti. cbn [negb]. unfold confirm_payload, sender_id, get, get_default.
  rewrite Hu. cbn [rbind subscript]. rewrite Hacc, Hconf. cbn [rbind py_int py_str].
  rewrite Hid.
  revert Hb'. destruct (lookup (lit "nonce") item); intros Hb'; cbn [rbind];
    rewrite (call_backend_success Hb' Hc' Hs'); reflexivity.
Qed.

(** X12.  [/confirm id] with a bare [id] that no item of the (non-empty,
    well-formed) pending list carries: the handler says that the id was
    not found, and posts nothing. *)
Theorem confirm_not_found
    (m : message) (u : user) (w part : pystr)
    (r : response) (d : list (pystr * json)) (its : list json) :
  split_ws1 (text_or_empty m) = [w; part] ->
  contains (chr ":") (strip part) = false ->
  from_user m = Some u ->
  backend (lit "GET")
          (lit "/api/telegram/bot/confirms/" ++ str_of_int (user_id u)) None
    = Responded r ->
  (http_status r >=? 400)%Z = false ->
  content r = Decoded (JDict d) ->
  lookup (lit "items") d = Some (JList its) ->
  its <> [] ->
  Forall (fun x => exists c, subscript x (lit "confirmation_id") = Ok c /\
                             py_str c <> strip part) its ->
  confirm m =
    (Ok tt,
     [Request (lit "GET")
              (lit "/api/telegram/bot/confirms/" ++ str_of_int (user_id u)) None;
      Answer (lit "Trade confirmation id not found in pending queue.") None]).
Proof.
  intros Hparts Hbare Hu Hb Hs Hc Hitems Hne Hnone.
  unfold confirm. rewrite Hparts. cbn [List.length Nat.ltb Nat.leb index nth_error].
  rewrite bind_lift_ok. unfold sender_id. rewrite Hu.
  unfold try_except, bind, lift. cbn [py_str].
  rewrite (call_backend_success Hb Hc Hs). unfold get_default. rewrite Hitems.
  assert (Ht : truthy (JList its) = true)
    by (destruct its; [congruence | reflexivity]).
  rewrite Ht. cbn [negb]. unfold resolve. rewrite Hbare. cbn [iterate rbind].
  rewrite (find_bare_none Hnone). reflexivity.
Qed.

(** ** Where an event of a log comes from *)

Lemma in_bind_lift (A B : Type) (ev : event) (r : res A) (k : A -> M B) :
  In ev (snd (bind (lift r) k)) -> exists a, r = Ok a /\ In ev (snd (k a)).
Proof.
  destruct r as [a | e]; [|intros []].
  rewrite bind_lift_ok. intros H. exists a. split; [reflexivity | exact H].
Qed.

Lemma in_bind_call (B : Type) (ev : event)
    (method path : pystr) (payload : option json) (k : json -> M B) :
  In ev (snd (bind (call_backend method path payload) k)) ->
  ev = Request method path payload \/
  exists data r,
    call_backend method path payload = (Ok data, [Request method path payload]) /\
    backend method path payload = Responded r /\
    content r = Decoded data /\
    (http_status r >=? 400)%Z = false /\
    In ev (snd (k data)).
Proof.
  unfold bind, call_backend, lift. simpl.
  destruct (backend method path payload) as [why | r]; simpl;
    [intros [H | []]; left; congruence|].
  destruct (content r) as [why | v] eqn:Hc; simpl;
    [intros [H | []]; left; congruence|].
  destruct (http_status r >=? 400)%Z eqn:Hs; simpl;
    [intros [H | []]; left; congruence|].
  destruct (k v) as [rk tk] eqn:Ek. simpl. intros [H | H]; [left; congruence|].
  right. exists v, r. rewrite Ek. simpl. repeat split; auto.
Qed.

Lemma in_try (ev : event) (body : M unit) (f : exn -> pystr) :
  In ev (snd (try_except body (fun err => answer (f err)))) ->
  In ev (snd body) \/ exists e, fst body = Raise e /\ ev = Answer (f e) None.
Proof.
  unfold try_except. destruct body as [[[] | e] t]; simpl; [now left|].
  intros H. apply in_app_or in H. destruct H as [H | [H | []]]; [now left|].
  right. exists e. split; [reflexivity | congruence].
Qed.

Lemma in_answer (ev : event) (reply : pystr) :
  In ev (snd (answer reply)) -> ev = Answer reply None.
Proof. intros [H | []]. congruence. Qed.

Lemma in_answer_mode (ev : event) (reply mode : pystr) :
  In ev (snd (answer_mode reply mode)) -> ev = Answer reply (Some mode).
Proof. intros [H | []]. congruence. Qed.

(** Follow an event [H : In ev (snd program)] down the program. *)
Ltac trace_event H :=
  repeat match type of H with
  | In _ (snd (try_except _ _)) =>
      apply in_try in H; destruct H as [H | (? & _ & H)]
  | In _ (snd (bind (lift _) _)) =>
      let a := fresh "a" in let E := fresh "E" in
      apply in_bind_lift in H; destruct H as (a & E & H)
  | In _ (snd (bind (call_backend _ _ _) _)) =>
      let data := fresh "data" in let r := fresh "r" in
      let Ecall := fresh "Ecall" in
      let Hb := fresh "Hb" in let Hc := fresh "Hc" in let Hs := fresh "Hs" in
      apply in_bind_call in H;
      destruct H as [H | (data & r & Ecall & Hb & Hc & Hs & H)]
  | In _ (snd (answer _)) => apply in_answer in H
  | In _ (snd (answer_mode _ _)) => apply in_answer_mode in H
  | In _ (snd (if ?b then _ else _)) =>
      let E := fresh "E" in destruct b eqn:E
  end.

(** X13.  [confirm] posts only what it was told is pending: a POST in its
    log is the confirm request, made after a good answer to the GET, and
    its payload is built from an item of the list that answer carried,
    the one [resolve] chose for the argument of the command. *)
Theorem confirm_posts_only_listed
    (m : message) (path : pystr) (payload : option json) :
  In (Request (lit "POST") path payload) (snd (confirm m)) ->
  exists u r pending items its part chosen p,
    from_user m = Some u /\
    backend (lit "GET")
            (lit "/api/telegram/bot/confirms/" ++ str_of_int (user_id u)) None
      = Responded r /\
    (http_status r >=? 400)%Z = false /\
    content r = Decoded pending /\
    get_default pending (lit "items") (JList []) = Ok items /\
    index (split_ws1 (text_or_empty m)) 1 = Ok part /\
    resolve items (strip part) = Ok chosen /\
    iterate items = Ok its /\ In chosen its /\
    confirm_payload m chosen = Ok p /\
    path = lit "/api/telegram/bot/confirm" /\ payload = Some p.
Proof.
  intros H. unfold confirm in H.
  trace_event H; try discriminate H.
  injection H as -> ->.
  destruct (from_user m) as [u|] eqn:Hu; unfold sender_id in E1;
    rewrite Hu in E1; [|discriminate]. injection E1 as <-.
  destruct (resolve_listed _ _ E4) as [-> | (its & Hits & Hin)];
    [discriminate E5|].
  exists u, r, data, a1, its, a, a2, a3. repeat split; assumption.
Qed.





(** ** More facts about text *)

Lemma lstrip_app (a b : pystr) :
  lstrip (a ++ b) = match lstrip a with
                    | [] => lstrip b
                    | _ :: _ => lstrip a ++ b
                    end.
Proof.
  induction a as [|c a IH]; simpl; [reflexivity|].
  destruct (isspace c); [exact IH | reflexivity].
Qed.

Lemma lstrip_decompose (s : pystr) :
  exists lead, s = lead ++ lstrip s /\ forallb isspace lead = true.
Proof.
  induction s as [|c s (lead & E & Hl)]; simpl.
  - exists []. split; reflexivity.
  - destruct (isspace c) eqn:Hc.
    + exists (c :: lead). simpl. rewrite Hc, Hl, <- E. split; reflexivity.
    + exists []. split; reflexivity.
Qed.

Lemma lstrip_idem (s : pystr) : lstrip (lstrip s) = lstrip s.
Proof.
  destruct (lstrip_shape s) as [-> | (c & r & -> & Hc)]; [reflexivity|].
  apply lstrip_head. exact Hc.
Qed.

Lemma spaces_rev (s : pystr) :
  forallb isspace s = true -> forallb isspace (rev s) = true.
Proof.
  intros H. apply forallb_forall. intros x Hx. apply in_rev in Hx.
  rewrite forallb_forall in H. auto.
Qed.

Lemma rstrip_spaces (s trail : pystr) :
  forallb isspace trail = true -> rstrip (s ++ trail) = rstrip s.
Proof.
  intros H. unfold rstrip. rewrite rev_app_distr, lstrip_spaces; [reflexivity|].
  apply spaces_rev. exact H.
Qed.

Lemma rstrip_app (p c : pystr) :
  rstrip (p ++ c) = match rstrip c with
                    | [] => rstrip p
                    | _ :: _ => p ++ rstrip c
                    end.
Proof.
  unfold rstrip. rewrite rev_app_distr, lstrip_app.
  destruct (lstrip (rev c)) as [|x l] eqn:E; [reflexivity|].
  rewrite rev_app_distr, rev_involutive.
  destruct (rev (x :: l)) eqn:E'; [|reflexivity].
  apply (f_equal (@rev char)) in E'. rewrite rev_involutive in E'. discriminate.
Qed.

Lemma rstrip_app_fixed (p c : pystr) :
  rstrip p = p -> rstrip (p ++ c) = p ++ rstrip c.
Proof.
  intros H. rewrite rstrip_app. destruct (rstrip c); [|reflexivity].
  rewrite app_nil_r. exact H.
Qed.

Lemma rstrip_visible_last (s : pystr) (x : char) :
  isspace x = false -> rstrip (s ++ [x]) = s ++ [x].
Proof.
  intros H. unfold rstrip. rewrite rev_app_distr. simpl. rewrite H.
  simpl. rewrite rev_involutive. reflexivity.
Qed.

Lemma rstrip_idem (s : pystr) : rstrip (rstrip s) = rstrip s.
Proof.
  destruct (rstrip_shape s) as [-> | (r & c & -> & Hc)]; [reflexivity|].
  apply rstrip_visible_last. exact Hc.
Qed.

Lemma rstrip_head (c : char) (r : pystr) :
  isspace c = false -> exists r', rstrip (c :: r) = c :: r'.
Proof.
  intros H. change (c :: r) with ([c] ++ r). rewrite rstrip_app.
  destruct (rstrip r).
  - exists []. unfold rstrip. simpl. rewrite H. reflexivity.
  - eexists. reflexivity.
Qed.

Lemma lstrip_rstrip (s : pystr) : lstrip (rstrip s) = rstrip (lstrip s).
Proof.
  destruct (lstrip_decompose s) as (lead & E & Hl).
  destruct (lstrip_shape s) as [H0 | (c & r & Hs & Hc)].
  - rewrite H0 in *. rewrite app_nil_r in E. subst lead.
    rewrite <- (app_nil_l s), rstrip_spaces by exact Hl. reflexivity.
  - rewrite Hs in *. destruct (rstrip_head c r Hc) as [r' Hr'].
    rewrite E at 1. rewrite rstrip_app, Hr', lstrip_spaces by exact Hl.
    apply lstrip_head. exact Hc.
Qed.

Lemma strip_idem (s : pystr) : strip (strip s) = strip s.
Proof.
  unfold strip. rewrite lstrip_rstrip, lstrip_idem, rstrip_idem. reflexivity.
Qed.

(** ** The request URL *)

Lemma drop_slashes_repeat (n : nat) (s : pystr) :
  drop_slashes (repeat (chr "/") n ++ s) = drop_slashes s.
Proof. induction n as [|n IH]; simpl; [reflexivity | exact IH]. Qed.

Lemma rev_repeat_char (c : char) (n : nat) : rev (repeat c n) = repeat c n.
Proof.
  induction n as [|n IH]; simpl; [reflexivity|].
  rewrite IH. symmetry. apply repeat_cons.
Qed.

(** X15.  The URL of a request does not depend on how many slashes end
    the configured base URL: they are all removed before the path is
    appended. *)
Theorem url_ignores_trailing_slashes (base path : pystr) (n : nat) :
  url_for (base ++ repeat (chr "/") n) path = url_for base path.
Proof.
  unfold url_for, rstrip_slash.
  rewrite rev_app_distr, rev_repeat_char, drop_slashes_repeat. reflexivity.
Qed.

Lemma drop_slashes_head (s : pystr) :
  match drop_slashes s with
  | [] => True
  | c :: _ => c <> chr "/"
  end.
Proof.
  induction s as [|c s IH]; [exact I|].
  change (drop_slashes (c :: s))
    with (if N.eqb c (chr "/") then drop_slashes s else c :: s).
  destruct (N.eqb c (chr "/")) eqn:E; [exact IH|].
  apply N.eqb_neq. exact E.
Qed.

(** X16.  Between the base URL and a path that starts with a slash there
    is exactly that one slash: what is kept of the base does not end with
    a slash. *)
Theorem url_single_slash (base path : pystr) :
  exists kept,
    url_for base (chr "/" :: path) = kept ++ chr "/" :: path /\
    forall front, kept <> front ++ [chr "/"].
Proof.
  exists (rstrip_slash base). split; [reflexivity|].
  intros front E. unfold rstrip_slash in E.
  apply (f_equal (@rev char)) in E. rewrite rev_involutive, rev_app_distr in E.
  simpl in E. pose proof (drop_slashes_head (rev base)) as H.
  rewrite E in H. apply H. reflexivity.
Qed.

(** ** Linking an account, and everything that is no command *)

Lemma partition_cons (sep c : char) (s : pystr) :
  N.eqb c sep = false ->
  partition sep (c :: s) = let (l, r) := partition sep s in (c :: l, r).
Proof.
  intros H. unfold partition. simpl. rewrite H.
  destruct (cut sep s) as [[l r]|]; reflexivity.
Qed.

Lemma word_cons (c : char) (s : pystr) :
  isspace c = false -> fst (word (c :: s)) = c :: fst (word s).
Proof. intros H. simpl. rewrite H. destruct (word s). reflexivity. Qed.

(** The first part of a text that starts with a visible character. *)
Lemma split_ws1_visible (c : char) (s : pystr) :
  isspace c = false ->
  exists args, split_ws1 (c :: s) = (c :: fst (word s)) :: args.
Proof.
  intros H. unfold split_ws1. rewrite lstrip_head by exact H.
  cbn [word]. rewrite H. destruct (word s) as [w r]. simpl.
  destruct (lstrip r); eexists; reflexivity.
Qed.

(** A text whose first word starts with [/add] passes none of the command
    filters. *)
Lemma command_rejects_add (m : message) (rest name : pystr) (deep : bool) :
  text m = Some (lit "/add" ++ rest) ->
  In name command_names ->
  command name deep m = false.
Proof.
  intros Ht Hn. unfold command. rewrite Ht.
  change (match lit "/add" ++ rest with
          | [] => match caption m with Some t => t | None => [] end
          | c :: t => c :: t
          end) with (chr "/" :: chr "a" :: chr "d" :: chr "d" :: rest).
  destruct (split_ws1_visible (chr "/") (chr "a" :: chr "d" :: chr "d" :: rest))
    as [args ->]; [reflexivity|].
  rewrite !word_cons by reflexivity.
  rewrite !partition_cons by reflexivity.
  destruct (partition (chr "@") (fst (word rest))) as [l mention].
  unfold command_names in Hn; simpl in Hn;
    repeat (destruct Hn as [<- | Hn];
            [simpl; rewrite ?andb_false_r; reflexivity|]);
    destruct Hn.
Qed.

Lemma dispatch_add (m : message) (rest : pystr) :
  text m = Some (lit "/add" ++ rest) -> dispatch m = fallback m.
Proof.
  intros Ht. unfold dispatch.
  rewrite !(@command_rejects_add m rest _ _ Ht) by (simpl; tauto).
  reflexivity.
Qed.

Lemma link_log (code : pystr) (m : message) (u : user) :
  from_user m = Some u ->
  exists reply,
    link code m =
      (Ok tt,
       [Request (lit "POST") (lit "/api/telegram/bot/link")
          (Some (JDict [(lit "code", JStr code);
                        (lit "telegramUserId", JStr (str_of_int (user_id u)));
                        (lit "username", match username u with
                                         | Some n => JStr n
                                         | None => JNull
                                         end)]));
        Answer reply None]).
Proof.
  intros Hu. unfold link, identity_payload, sender_id, sender_username.
  rewrite Hu. cbn [rbind lift py_str]. rewrite bind_lift_ok.
  match goal with
  | |- context [call_backend ?a ?b ?c] =>
      destruct (call_backend_log a b c) as [[[] | e] E]
  end; unfold try_except, bind; rewrite E; cbn; eauto.
Qed.

Lemma dispatch_add_equals (m : message) (code : pystr) :
  text m = Some (lit "/add=" ++ code) -> dispatch m = link (rstrip code) m.
Proof.
  intros Ht. rewrite (@dispatch_add m (chr "=" :: code) Ht).
  unfold fallback, text_or_empty. rewrite Ht.
  assert (Hs : strip (lit "/add=" ++ code) = lit "/add=" ++ rstrip code).
  { unfold strip. change (lstrip (lit "/add=" ++ code)) with (lit "/add=" ++ code).
    apply rstrip_app_fixed. reflexivity. }
  rewrite Hs, startswith_app.
  change (index (split_sep1 (chr "=") (lit "/add=" ++ rstrip code)) 1)
    with (Ok (rstrip code)).
  apply bind_lift_ok.
Qed.

Lemma dispatch_add_space (m : message) (rest : pystr) :
  text m = Some (lit "/add " ++ rest) ->
  strip rest <> [] ->
  dispatch m = link (strip rest) m.
Proof.
  intros Ht Hcode.
  assert (Hl : lstrip (rstrip rest) = strip rest) by apply lstrip_rstrip.
  assert (Hr : rstrip rest <> []).
  { intros E. rewrite E in Hl. simpl in Hl. congruence. }
  rewrite (@dispatch_add m (32%N :: rest) Ht).
  unfold fallback, text_or_empty. rewrite Ht.
  assert (Hs : strip (lit "/add " ++ rest) = lit "/add " ++ rstrip rest).
  { unfold strip. change (lstrip (lit "/add " ++ rest)) with (lit "/add " ++ rest).
    rewrite rstrip_app. destruct (rstrip rest); [congruence | reflexivity]. }
  rewrite Hs.
  change (startswith (lit "/add " ++ rstrip rest) (lit "/add=")) with false.
  rewrite startswith_app.
  change (lit "/add " ++ rstrip rest) with (lit "/add" ++ 32%N :: rstrip rest).
  destruct (strip rest) as [|x tail] eqn:Ex; [congruence|].
  rewrite (@split_ws1_second (lit "/add") (32%N :: rstrip rest) x tail);
    [| discriminate | reflexivity | reflexivity | exact Hl].
  cbn [index nth_error]. rewrite bind_lift_ok.
  rewrite <- Ex, strip_idem. reflexivity.
Qed.

Lemma link_same_sender (code : pystr) (m1 m2 : message) :
  from_user m1 = from_user m2 -> link code m1 = link code m2.
Proof.
  intros H. unfold link, identity_payload, sender_id, sender_username.
  rewrite H. reflexivity.
Qed.

(** X17.  [/add=code] goes to the link endpoint with everything after the
    first [=] as the code: later [=] signs and leading white space stay,
    only the white space that ends the message is gone (the whole text is
    stripped first).  One POST, one reply. *)
Theorem add_equals_links (m : message) (u : user) (code : pystr) :
  text m = Some (lit "/add=" ++ code) ->
  from_user m = Some u ->
  exists reply,
    dispatch m =
      (Ok tt,
       [Request (lit "POST") (lit "/api/telegram/bot/link")
          (Some (JDict [(lit "code", JStr (rstrip code));
                        (lit "telegramUserId", JStr (str_of_int (user_id u)));
                        (lit "username", match username u with
                                         | Some n => JStr n
                                         | None => JNull
                                         end)]));
        Answer reply None]).
Proof.
  intros Ht Hu. rewrite (@dispatch_add_equals m code Ht). apply link_log. exact Hu.
Qed.

(** X18.  [/add code], with a space after [/add] and a code that is not
    blank, goes to the link endpoint with the code stripped of white space
    on both sides. *)
Theorem add_space_links (m : message) (u : user) (rest : pystr) :
  text m = Some (lit "/add " ++ rest) ->
  strip rest <> [] ->
  from_user m = Some u ->
  exists reply,
    dispatch m =
      (Ok tt,
       [Request (lit "POST") (lit "/api/telegram/bot/link")
          (Some (JDict [(lit "code", JStr (strip rest));
                        (lit "telegramUserId", JStr (str_of_int (user_id u)));
                        (lit "username", match username u with
                                         | Some n => JStr n
                                         | None => JNull
                                         end)]));
        Answer reply None]).
Proof.
  intros Ht Hcode Hu. rewrite (@dispatch_add_space m rest Ht Hcode).
  apply link_log. exact Hu.
Qed.

(** X19.  For a code without white space around it, [/add=code] and
    [/add code] from the same sender do exactly the same. *)
Theorem add_forms_agree (m1 m2 : message) (code : pystr) :
  text m1 = Some (lit "/add=" ++ code) ->
  text m2 = Some (lit "/add " ++ code) ->
  from_user m1 = from_user m2 ->
  strip code = code ->
  code <> [] ->
  dispatch m1 = dispatch m2.
Proof.
  intros H1 H2 Hu Hclean Hne.
  assert (Hr : rstrip code = code).
  { rewrite <- Hclean at 1. unfold strip. rewrite rstrip_idem. exact Hclean. }
  rewrite (@dispatch_add_equals m1 code H1), Hr.
  rewrite (@dispatch_add_space m2 code H2) by (rewrite Hclean; exact Hne).
  rewrite Hclean. apply link_same_sender. exact Hu.
Qed.

Lemma rstrip_decompose (s : pystr) :
  exists trail, s = rstrip s ++ trail /\ forallb isspace trail = true.
Proof.
  destruct (lstrip_decompose (rev s)) as (lead & E & Hl).
  exists (rev lead). split; [|apply spaces_rev; exact Hl].
  unfold rstrip. rewrite <- rev_app_distr, <- E, rev_involutive. reflexivity.
Qed.

(** What [rstrip] leaves of a text is empty or starts like the text. *)
Lemma rstrip_keeps_head (c : char) (r : pystr) :
  rstrip (c :: r) = [] \/ exists r', rstrip (c :: r) = c :: r'.
Proof.
  destruct (rstrip_decompose (c :: r)) as (trail & E & _).
  destruct (rstrip (c :: r)) as [|x r']; [now left|].
  right. exists r'. simpl in E. congruence.
Qed.

(** X20.  After [/add] only [=] and a plain space introduce a code: any
    other character there (a tab, a letter, a line feed) sends the text to
    the help reply, and so does [/add] on its own.  Nothing is requested. *)
Theorem add_needs_equals_or_space (m : message) (rest : pystr) :
  text m = Some (lit "/add" ++ rest) ->
  match rest with
  | [] => True
  | c :: _ => c <> chr "=" /\ c <> chr " "
  end ->
  dispatch m = (Ok tt, [Answer unknown_command None]).
Proof.
  intros Ht Hrest. rewrite (@dispatch_add m rest Ht).
  unfold fallback, text_or_empty. rewrite Ht.
  assert (Hs : strip (lit "/add" ++ rest) = lit "/add" ++ rstrip rest).
  { unfold strip. change (lstrip (lit "/add" ++ rest)) with (lit "/add" ++ rest).
    apply rstrip_app_fixed. reflexivity. }
  rewrite Hs.
  assert (Hshape : rstrip rest = [] \/
                   exists c r', rstrip rest = c :: r' /\
                                N.eqb (chr "=") c = false /\
                                N.eqb (chr " ") c = false).
  { destruct rest as [|c r]; [now left|].
    destruct (rstrip_keeps_head c r) as [E | (r' & E)]; [now left|].
    right. exists c, r'. destruct Hrest as [H1 H2].
    repeat split; [exact E | |]; apply N.eqb_neq; congruence. }
  destruct Hshape as [-> | (c & r' & -> & H1 & H2)]; [reflexivity|].
  change (startswith (lit "/add" ++ c :: r') (lit "/add="))
    with (N.eqb (chr "=") c && true).
  rewrite H1.
  change (startswith (lit "/add" ++ c :: r') (lit "/add "))
    with (N.eqb (chr " ") c && true).
  rewrite H2. reflexivity.
Qed.

(** X21.  A text whose first visible character is not a slash is no
    command: the reply is the help text and nothing is requested.  So is
    a text of white space only. *)
Theorem plain_text_gets_help (m : message) (t : pystr) :
  text m = Some t ->
  t <> [] ->
  (forall c r, lstrip t = c :: r -> c <> chr "/") ->
  dispatch m = (Ok tt, [Answer unknown_command None]).
Proof.
  intros Ht Hne Hno.
  assert (Hcmd : forall name deep, command name deep m = false).
  { intros name deep. unfold command. rewrite Ht.
    destruct t as [|c0 t0]; [congruence|].
    unfold split_ws1.
    destruct (lstrip_shape (c0 :: t0)) as [E | (c & r & E & Hc)]; rewrite E;
      [reflexivity|].
    cbn [word]. rewrite Hc. destruct (word r) as [w r0].
    assert (Hslash : N.eqb c (chr "/") = false)
      by (apply N.eqb_neq; exact (Hno c r E)).
    destruct (lstrip r0); destruct (partition (chr "@") w);
      rewrite Hslash; reflexivity. }
  unfold dispatch. rewrite !Hcmd.
  unfold fallback, text_or_empty, strip. rewrite Ht.
  destruct (lstrip_shape t) as [E | (c & r & E & Hc)]; rewrite E; [reflexivity|].
  destruct (rstrip_head c r Hc) as [r' ->].
  assert (Hslash : N.eqb (chr "/") c = false).
  { apply N.eqb_neq. intros Heq. exact (Hno c r E (eq_sym Heq)). }
  change (startswith (c :: r') (lit "/add="))
    with (N.eqb (chr "/") c && startswith r' (lit "add=")).
  change (startswith (c :: r') (lit "/add "))
    with (N.eqb (chr "/") c && startswith r' (lit "add ")).
  rewrite Hslash. reflexivity.
Qed.

(** X22.  White space after the argument of [/confirm] changes nothing:
    the identifier is stripped before it is used. *)
Theorem confirm_ignores_trailing_space
    (m1 m2 : message) (ws arg trail : pystr) (c : char) :
  text m1 = Some (lit "/confirm" ++ ws ++ c :: arg) ->
  text m2 = Some (lit "/confirm" ++ ws ++ c :: arg ++ trail) ->
  from_user m1 = from_user m2 ->
  ws <> [] ->
  forallb isspace ws = true ->
  isspace c = false ->
  forallb isspace trail = true ->
  confirm m1 = confirm m2.
Proof.
  intros H1 H2 Hu Hne Hws Hc Htrail.
  unfold confirm, text_or_empty. rewrite H1, H2.
  rewrite !split_ws1_pair by
    first [discriminate | reflexivity | assumption].
  cbn [List.length Nat.ltb Nat.leb index nth_error].
  rewrite !bind_lift_ok.
  assert (Hs : strip (c :: arg ++ trail) = strip (c :: arg)).
  { unfold strip. rewrite !lstrip_head by exact Hc.
    change (c :: arg ++ trail) with ((c :: arg) ++ trail).
    apply rstrip_spaces. exact Htrail. }
  rewrite Hs. unfold confirm_payload, sender_id. rewrite Hu. reflexivity.
Qed.

Lemma command_exclusive (m : message) (n1 n2 : pystr) (d1 d2 : bool) :
  command n1 d1 m = true -> n1 <> n2 -> command n2 d2 m = false.
Proof.
  unfold command.
  destruct (split_ws1 _) as [|[|prefix rest] args]; try discriminate.
  destruct (partition (chr "@") rest) as [cmd mention].
  intros H Hne.
  apply andb_true_iff in H. destruct H as [H _].
  apply andb_true_iff in H. destruct H as [_ H].
  apply str_eqb_eq in H. subst cmd.
  destruct (str_eqb n1 n2) eqn:E.
  - apply str_eqb_eq in E. contradiction.
  - rewrite andb_false_r. reflexivity.
Qed.

(** X23.  A [/confirm] command that comes as the caption of a media
    message, not as its text, passes the filter but gets the usage reply:
    the handler reads the text only, so the argument in the caption is
    never used and nothing is requested. *)
Theorem confirm_in_caption_gets_usage (m : message) :
  text_or_empty m = [] ->
  command (lit "confirm") false m = true ->
  dispatch m = (Ok tt, [Answer confirm_usage None]).
Proof.
  intros Ht Hc. unfold dispatch.
  rewrite (@command_exclusive m (lit "confirm") (lit "start") false true Hc)
    by discriminate.
  rewrite (@command_exclusive m (lit "confirm") (lit "start") false false Hc)
    by discriminate.
  rewrite (@command_exclusive m (lit "confirm") (lit "status") false false Hc)
    by discriminate.
  rewrite (@command_exclusive m (lit "confirm") (lit "accounts") false false Hc)
    by discriminate.
  rewrite (@command_exclusive m (lit "confirm") (lit "codes") false false Hc)
    by discriminate.
  rewrite Hc. apply confirm_short. rewrite Ht. reflexivity.
Qed.

(** ** Whose request it is *)

Lemma identity_payload_sender (code : pystr) (m : message) (u : user) (p : json) :
  from_user m = Some u ->
  identity_payload code m = Ok p ->
  exists d, p = JDict d /\
            lookup (lit "telegramUserId") d = Some (JStr (str_of_int (user_id u))).
Proof.
  intros Hu H. unfold identity_payload, sender_id, sender_username in H.
  rewrite Hu in H. simpl in H. injection H as <-.
  eexists. split; reflexivity.
Qed.

Lemma confirm_payload_sender (m : message) (u : user) (chosen p : json) :
  from_user m = Some u ->
  confirm_payload m chosen = Ok p ->
  exists d, p = JDict d /\
            lookup (lit "telegramUserId") d = Some (JStr (str_of_int (user_id u))).
Proof.
  intros Hu H. unfold confirm_payload, sender_id in H. rewrite Hu in H.
  cbn [rbind] in H.
  destruct (subscript chosen (lit "account_id")); cbn [rbind] in H; [|discriminate].
  destruct (py_int a); cbn [rbind] in H; [|discriminate].
  destruct (subscript chosen (lit "confirmation_id")); cbn [rbind] in H;
    [|discriminate].
  destruct (get chosen (lit "nonce")); cbn [rbind] in H; [|discriminate].
  injection H as <-. eexists. split; reflexivity.
Qed.

Lemma sender_id_known (m : message) (u : user) (a : Z) :
  from_user m = Some u -> sender_id m = Ok a -> a = user_id u.
Proof. intros Hu H. unfold sender_id in H. rewrite Hu in H. congruence. Qed.

(** X24.  Every backend request is made in the sender's name and in no
    other: a GET is for one of the three listings and its path is that
    listing's prefix followed by the sender's id and nothing else; a POST
    goes to one of the three endpoints and its payload carries the
    sender's id as [telegramUserId].  Nothing in the text of the message
    can change that. *)
Theorem requests_carry_sender
    (m : message) (u : user) (method path : pystr) (payload : option json) :
  from_user m = Some u ->
  In (Request method path payload) (snd (dispatch m)) ->
  (method = lit "GET" /\ payload = None /\
   exists front,
     In front [lit "/api/telegram/bot/accounts/"; lit "/api/telegram/bot/codes/";
               lit "/api/telegram/bot/confirms/"] /\
     path = front ++ str_of_int (user_id u)) \/
  (method = lit "POST" /\
   In path [lit "/api/telegram/bot/oauth"; lit "/api/telegram/bot/link";
            lit "/api/telegram/bot/confirm"] /\
   exists d, payload = Some (JDict d) /\
             lookup (lit "telegramUserId") d = Some (JStr (str_of_int (user_id u)))).
Proof.
  intros Hu. unfold dispatch.
  repeat match goal with |- context [if ?b then _ else _] => destruct b end;
    intros H.
  - unfold start_with_param in H. destruct (start_arg_defined m) as [arg Harg].
    rewrite Harg, bind_lift_ok in H.
    trace_event H; try discriminate H.
    injection H as -> -> ->. right.
    destruct (@identity_payload_sender _ m u _ Hu E0) as (d & -> & Hd).
    split; [reflexivity|]. split; [simpl; tauto | eauto].
  - unfold start_plain in H. trace_event H. discriminate H.
  - unfold status in H. trace_event H; try discriminate H.
    injection H as -> -> ->. rewrite (@sender_id_known m u _ Hu E). left.
    split; [reflexivity|]. split; [reflexivity|].
    exists (lit "/api/telegram/bot/accounts/"). split; [simpl; tauto | reflexivity].
  - unfold accounts in H. trace_event H; try discriminate H.
    injection H as -> -> ->. rewrite (@sender_id_known m u _ Hu E). left.
    split; [reflexivity|]. split; [reflexivity|].
    exists (lit "/api/telegram/bot/accounts/"). split; [simpl; tauto | reflexivity].
  - unfold codes in H. trace_event H; try discriminate H.
    injection H as -> -> ->. rewrite (@sender_id_known m u _ Hu E). left.
    split; [reflexivity|]. split; [reflexivity|].
    exists (lit "/api/telegram/bot/codes/"). split; [simpl; tauto | reflexivity].
  - unfold confirm in H. trace_event H; try discriminate H.
    + injection H as -> -> ->. rewrite (@sender_id_known m u _ Hu E1). left.
      split; [reflexivity|]. split; [reflexivity|].
      exists (lit "/api/telegram/bot/confirms/").
      split; [simpl; tauto | reflexivity].
    + injection H as -> -> ->. right.
      destruct (@confirm_payload_sender m u _ _ Hu E6) as (d & -> & Hd).
      split; [reflexivity|]. split; [simpl; tauto | eauto].
  - unfold fallback in H.
    destruct (startswith (strip (text_or_empty m)) (lit "/add=")) eqn:E1.
    + destruct (add_equals_second _ E1) as (r & _ & Hr).
      rewrite Hr, bind_lift_ok in H. unfold link in H.
      trace_event H; try discriminate H.
      injection H as -> -> ->. right.
      destruct (@identity_payload_sender _ m u _ Hu E) as (d & -> & Hd).
      split; [reflexivity|]. split; [simpl; tauto | eauto].
    + destruct (startswith (strip (text_or_empty m)) (lit "/add ")) eqn:E2.
      * destruct (add_space_second _ E2) as [part Hp].
        rewrite Hp, bind_lift_ok in H. unfold link in H.
        trace_event H; try discriminate H.
        injection H as -> -> ->. right.
        destruct (@identity_payload_sender _ m u _ Hu E) as (d & -> & Hd).
        split; [reflexivity|]. split; [simpl; tauto | eauto].
      * trace_event H. discriminate H.
Qed.

Lemma find_bare_stops
    (before after : list json) (bad : json) (identifier : pystr) (e : exn) :
  Forall (fun x => exists c, subscript x (lit "confirmation_id") = Ok c /\
                             py_str c <> identifier) before ->
  subscript bad (lit "confirmation_id") = Raise e ->
  find_bare identifier (before ++ bad :: after) = Raise e.
Proof.
  intros Hb Hbad. induction Hb as [|x before (c & Hx & Hne) _ IH]; simpl.
  - rewrite Hbad. reflexivity.
  - rewrite Hx. simpl. destruct (str_eqb (py_str c) identifier) eqn:E; [|exact IH].
    apply str_eqb_eq in E. contradiction.
Qed.

(** X25.  A pending item without a readable [confirmation_id] that comes
    before any match stops a bare [/confirm]: the reply is the failure
    text with that exception and nothing is posted, even when a later
    item would have matched. *)
Theorem confirm_unreadable_item
    (m : message) (u : user) (w part : pystr)
    (r : response) (d : list (pystr * json))
    (before after : list json) (bad : json) (e : exn) :
  split_ws1 (text_or_empty m) = [w; part] ->
  contains (chr ":") (strip part) = false ->
  from_user m = Some u ->
  backend (lit "GET")
          (lit "/api/telegram/bot/confirms/" ++ str_of_int (user_id u)) None
    = Responded r ->
  (http_status r >=? 400)%Z = false ->
  content r = Decoded (JDict d) ->
  lookup (lit "items") d = Some (JList (before ++ bad :: after)) ->
  Forall (fun x => exists c, subscript x (lit "confirmation_id") = Ok c /\
                             py_str c <> strip part) before ->
  subscript bad (lit "confirmation_id") = Raise e ->
  confirm m =
    (Ok tt,
     [Request (lit "GET")
              (lit "/api/telegram/bot/confirms/" ++ str_of_int (user_id u)) None;
      Answer (lit "Confirm failed: " ++ str_exn e) None]).
Proof.
  intros Hparts Hbare Hu Hb Hs Hc Hitems Hbefore Hbad.
  unfold confirm. rewrite Hparts. cbn [List.length Nat.ltb Nat.leb index nth_error].
  rewrite bind_lift_ok. unfold sender_id. rewrite Hu.
  unfold try_except, bind, lift. cbn [py_str].
  rewrite (call_backend_success Hb Hc Hs). unfold get_default. rewrite Hitems.
  assert (Ht : truthy (JList (before ++ bad :: after)) = true)
    by (destruct before; reflexivity).
  rewrite Ht. cbn [negb]. unfold resolve. rewrite Hbare. cbn [iterate rbind].
  rewrite (@find_bare_stops before after bad (strip part) e Hbefore Hbad).
  reflexivity.
Qed.

(** ** Handlers over a chat that may refuse *)

Section SendingFacts.

Variable chat : pystr -> option pystr -> option pystr.

Lemma bind'_lift_ok (A B : Type) (a : A) (k : A -> T B) :
  bind' (lift' (Ok a)) k = k a.
Proof. unfold bind', lift'. destruct (k a). reflexivity. Qed.

Lemma send_cases (reply : pystr) (mode : option pystr) :
  (chat reply mode = None /\
   send chat reply mode = (Ok tt, [Did (Answer reply mode)])) \/
  (exists why, chat reply mode <> None /\
               send chat reply mode = (Raise (LibraryError why), [Refused reply mode])).
Proof.
  unfold send. destruct (chat reply mode) as [why|] eqn:E.
  - right. exists why. split; [discriminate | reflexivity].
  - left. split; reflexivity.
Qed.

Lemma tidy'_send (n : nat) (reply : pystr) (mode : option pystr) :
  tidy' chat n (send chat reply mode).
Proof.
  exists []. split; [apply quiet_nil|].
  destruct (send_cases reply mode) as [[Hc ->] | (why & Hc & ->)].
  - exists reply, mode. split; [exact Hc | reflexivity].
  - right. exists reply, mode. split; [exact Hc | reflexivity].
Qed.

Lemma tidy'_bind_lift (A : Type) (n : nat) (r : res A) (k : A -> T unit) :
  (forall a, tidy' chat n (k a)) -> tidy' chat n (bind' (lift' r) k).
Proof.
  intros Hk. destruct r as [a | e].
  - rewrite bind'_lift_ok. apply Hk.
  - exists []. split; [apply quiet_nil | now left].
Qed.

Lemma tidy'_bind_call (n : nat) (method path : pystr) (payload : option json)
    (k : json -> T unit) :
  (forall a, tidy' chat n (k a)) ->
  tidy' chat (S n) (bind' (up (call_backend method path payload)) k).
Proof.
  intros Hk. destruct (call_backend_log method path payload) as [[a | e] E];
    unfold bind', up; rewrite E; simpl.
  - destruct (Hk a) as (reqs & Hq & H). destruct (k a) as [[[] | e] t].
    + destruct H as (reply & mode & Hc & ->).
      exists (Request method path payload :: reqs).
      split; [apply quiet_cons; exact Hq|].
      exists reply, mode. split; [exact Hc | reflexivity].
    + exists (Request method path payload :: reqs).
      split; [apply quiet_cons; exact Hq|].
      destruct H as [-> | (reply & mode & Hc & ->)]; [now left|].
      right. exists reply, mode. split; [exact Hc | reflexivity].
  - exists [Request method path payload].
    split; [apply quiet_cons; apply quiet_nil | now left].
Qed.

Lemma shaped'_send (n : nat) (reply : pystr) (mode : option pystr) :
  shaped' chat n (send chat reply mode).
Proof.
  destruct (send_cases reply mode) as [[Hc ->] | (why & Hc & ->)].
  - exists [], [Did (Answer reply mode)]. split; [reflexivity|].
    split; [apply quiet_nil|].
    exists (Did (Answer reply mode)). repeat split; auto.
  - exists [], [Refused reply mode]. split; [reflexivity|].
    split; [apply quiet_nil|].
    exists (Refused reply mode). repeat split; auto.
Qed.

Lemma shaped'_try (n : nat) (body : T unit) (f : exn -> pystr) :
  tidy' chat n body ->
  shaped' chat n (try_except' body (fun err => send chat (f err) None)).
Proof.
  intros (reqs & Hq & H). unfold try_except'. destruct body as [[[] | e] t].
  - destruct H as (reply & mode & Hc & ->).
    exists reqs, [Did (Answer reply mode)]. split; [reflexivity|].
    split; [exact Hq|]. exists (Did (Answer reply mode)). repeat split; auto.
  - destruct (send_cases (f e) None) as [[Hc' ->] | (why & Hc' & ->)];
      destruct H as [-> | (reply & mode & Hc & ->)]; simpl.
    + exists reqs, [Did (Answer (f e) None)]. split; [reflexivity|].
      split; [exact Hq|]. exists (Did (Answer (f e) None)). repeat split; auto.
    + exists reqs, [Refused reply mode; Did (Answer (f e) None)].
      split; [rewrite <- app_assoc; reflexivity|].
      split; [exact Hq|]. exists (Did (Answer (f e) None)).
      repeat split; auto. right. exists reply, mode. split; [exact Hc | reflexivity].
    + exists reqs, [Refused (f e) None]. split; [reflexivity|].
      split; [exact Hq|]. exists (Refused (f e) None). repeat split; auto.
    + exists reqs, [Refused reply mode; Refused (f e) None].
      split; [rewrite <- app_assoc; reflexivity|].
      split; [exact Hq|]. exists (Refused (f e) None).
      repeat split; auto. right. exists reply, mode. split; [exact Hc | reflexivity].
Qed.

Ltac shape'_steps :=
  repeat first
    [ apply shaped'_try
    | apply tidy'_bind_lift; intros ?
    | apply tidy'_bind_call; intros ?
    | apply tidy'_send
    | match goal with |- tidy' _ _ (if ?b then _ else _) => destruct b end ].

Lemma link'_shaped (code : pystr) (m : message) : shaped' chat 2 (link' chat code m).
Proof. unfold link'. shape'_steps. Qed.

Lemma dispatch'_shaped (m : message) : shaped' chat 2 (dispatch' chat m).
Proof.
  unfold dispatch'.
  repeat match goal with |- context [if ?b then _ else _] => destruct b end.
  - unfold start_with_param'. destruct (start_arg_defined m) as [arg ->].
    rewrite bind'_lift_ok.
    destruct (startswith arg (lit "login_")); [shape'_steps | apply shaped'_send].
  - apply shaped'_send.
  - unfold status'. shape'_steps.
  - unfold accounts'. shape'_steps.
  - unfold codes'. shape'_steps.
  - unfold confirm'.
    destruct (List.length (split_ws1 (text_or_empty m)) <? 2)%nat eqn:E;
      [apply shaped'_send|].
    destruct (index_second _ E) as [part ->]. rewrite bind'_lift_ok. shape'_steps.
  - unfold fallback'.
    destruct (startswith (strip (text_or_empty m)) (lit "/add=")) eqn:E1.
    + destruct (add_equals_second _ E1) as (r & _ & ->).
      rewrite bind'_lift_ok. apply link'_shaped.
    + destruct (startswith (strip (text_or_empty m)) (lit "/add ")) eqn:E2.
      * destruct (add_space_second _ E2) as [part ->].
        rewrite bind'_lift_ok. apply link'_shaped.
      * apply shaped'_send.
Qed.



(** X1.  Whatever the message, the backend and the chat, the log of a
    handler is at most two backend requests followed by its sends:
    one send, or a refused send and then the send of the [except]
    clause.  Nothing is requested after a send. *)
Theorem dispatch'_log_shape (m : message) :
  exists reqs sends last,
    snd (dispatch' chat m) = map Did reqs ++ sends /\
    forallb is_request reqs = true /\
    (List.length reqs <= 2)%nat /\
    is_send last = true /\
    (sends = [last] \/
     exists reply mode, chat reply mode <> None /\
                        sends = [Refused reply mode; last]).
Proof.
  destruct (dispatch'_shaped m)
    as (reqs & sends & Hs & [Hr Hn] & (last & Hset & _ & Hsends)).
  exists reqs, sends, last. repeat split; try assumption.
  destruct last as [[method path payload | reply mode] | reply mode];
    [contradiction | reflexivity | reflexivity].
Qed.

(** *** The handlers above are these, over a chat that takes everything *)

Hypothesis chat_takes_all : forall reply mode, chat reply mode = None.

Lemma up_lift (A : Type) (r : res A) : up (lift r) = lift' r.
Proof. reflexivity. Qed.

Lemma up_bind (A B : Type) (m : M A) (k : A -> M B) :
  up (bind m k) = bind' (up m) (fun a => up (k a)).
Proof.
  unfold up, bind, bind'. destruct m as [[a | e] t]; simpl; [|reflexivity].
  destruct (k a) as [r t']. simpl. rewrite map_app. reflexivity.
Qed.

Lemma up_try (A : Type) (body : M A) (handler : exn -> M A) :
  up (try_except body handler)
  = try_except' (up body) (fun e => up (handler e)).
Proof.
  unfold up, try_except, try_except'. destruct body as [[a | e] t]; simpl;
    [reflexivity|].
  destruct (handler e) as [r t']. simpl. rewrite map_app. reflexivity.
Qed.

Lemma bind'_ext (A B : Type) (m : T A) (k k' : A -> T B) :
  (forall a, k a = k' a) -> bind' m k = bind' m k'.
Proof.
  intros H. unfold bind'. destruct m as [[a | e] t]; [|reflexivity].
  rewrite H. reflexivity.
Qed.

Lemma try'_ext (A : Type) (body body' : T A) (h h' : exn -> T A) :
  body = body' -> (forall e, h e = h' e) ->
  try_except' body h = try_except' body' h'.
Proof.
  intros -> H. unfold try_except'. destruct body' as [[a | e] t]; [reflexivity|].
  rewrite H. reflexivity.
Qed.

Lemma send_answer (reply : pystr) : send chat reply None = up (answer reply).
Proof. unfold send. rewrite chat_takes_all. reflexivity. Qed.

Lemma send_answer_mode (reply mode : pystr) :
  send chat reply (Some mode) = up (answer_mode reply mode).
Proof. unfold send. rewrite chat_takes_all. reflexivity. Qed.

Ltac same_steps :=
  repeat first
    [ rewrite up_try; apply try'_ext; [|intros ?]
    | rewrite up_bind; apply bind'_ext; intros ?
    | rewrite up_lift
    | apply send_answer
    | apply send_answer_mode
    | match goal with |- (if ?b then _ else _) = up (if ?b then _ else _) =>
        destruct b
      end
    | reflexivity ].

Lemma link'_same (code : pystr) (m : message) : link' chat code m = up (link code m).
Proof. unfold link', link. same_steps. Qed.

(** Over a chat that takes every send, the dispatcher with sends that can
    fail does what [dispatch] does, step for step. *)
Lemma dispatch'_same (m : message) : dispatch' chat m = up (dispatch m).
Proof.
  unfold dispatch', dispatch.
  repeat match goal with |- context [if ?b then _ else _] => destruct b end.
  - unfold start_with_param', start_with_param. same_steps.
  - apply send_answer.
  - unfold status', status. same_steps.
  - unfold accounts', accounts. same_steps.
  - unfold codes', codes. same_steps.
  - unfold confirm', confirm. same_steps.
  - unfold fallback', fallback. same_steps; apply link'_same.
Qed.

End SendingFacts.

End Bot.

(** ** Worked examples *)

(** The dispatcher in the sample surroundings, over a given backend. *)
Abbreviation run backend m :=
  (dispatch sample_repr sample_int sample_describe sample_mention backend m)
  (only parsing).

(** Two pending items share the confirmation id [a]; [/confirm a] picks the
    one listed first, of account 1. *)
Lemma resolve_bare_first_match_witness :
  resolve sample_repr (JList [pending_item 1 "a"; pending_item 2 "a"]) (lit "a")
  = Ok (pending_item 1 "a").
Proof.
  apply (@resolve_bare_first_match sample_repr
           [] [pending_item 2 "a"] (pending_item 1 "a") (JStr (lit "a")) (lit "a")).
  - reflexivity.
  - constructor.
  - reflexivity.
  - reflexivity.
Defined.

(** The same through the whole handler: the POST carries account 1. *)
Example confirm_duplicate_ids_posts_first :
  run (always 200 (items_body [pending_item 1 "a"; pending_item 2 "a"]))
      (from_42 "/confirm a")
  = (Ok tt,
     [Request (lit "GET") (lit "/api/telegram/bot/confirms/42") None;
      Request (lit "POST") (lit "/api/telegram/bot/confirm")
        (Some (JDict [(lit "telegramUserId", JStr (lit "42"));
                      (lit "accountId", JInt 1);
                      (lit "confirmationId", JStr (lit "a"));
                      (lit "nonce", JNull)]));
      Answer (lit "Trade confirmation sent to Steam successfully.") None]).
Proof. vm_compute. reflexivity. Qed.

(** [/confirm 2:a] among accounts 1 and 2 with the same confirmation id:
    the item of account 2 is chosen, and both of its ids match. *)
Lemma resolve_pair_needs_both_witness :
  resolve sample_repr (JList [pending_item 1 "a"; pending_item 2 "a"]) (lit "2:a")
  = Ok (pending_item 2 "a") /\
  (pending_item 2 "a" = JNull \/
   exists its account confirmation,
     iterate (JList [pending_item 1 "a"; pending_item 2 "a"]) = Ok its /\
     In (pending_item 2 "a") its /\
     subscript (pending_item 2 "a") (lit "account_id") = Ok account /\
     py_str sample_repr account = lit "2" /\
     subscript (pending_item 2 "a") (lit "confirmation_id") = Ok confirmation /\
     py_str sample_repr confirmation = lit "a").
Proof.
  split; [reflexivity|].
  apply (@resolve_pair_needs_both sample_repr
           (JList [pending_item 1 "a"; pending_item 2 "a"])
           (pending_item 2 "a") (lit "2:a") (lit "2") (lit "a"));
    reflexivity.
Defined.

(** With account 1 only, [2:a] finds nothing although the confirmation id
    alone would match; the handler says so and posts nothing. *)
Example resolve_account_mismatch :
  resolve sample_repr (JList [pending_item 1 "a"]) (lit "2:a") = Ok JNull /\
  run (always 200 (items_body [pending_item 1 "a"])) (from_42 "/confirm 2:a")
  = (Ok tt,
     [Request (lit "GET") (lit "/api/telegram/bot/confirms/42") None;
      Answer (lit "Trade confirmation id not found in pending queue.") None]).
Proof. split; vm_compute; reflexivity. Qed.

(** An empty pending list: one GET, the distinct reply, no POST. *)
Lemma confirm_empty_pending_witness :
  confirm sample_repr sample_int sample_describe (always 200 (items_body []))
          (from_42 "/confirm 2:a")
  = (Ok tt,
     [Request (lit "GET")
              (lit "/api/telegram/bot/confirms/" ++ str_of_int 42) None;
      Answer (lit "No pending confirmations.") None]).
Proof.
  apply (@confirm_empty_pending sample_repr sample_int sample_describe
           (always 200 (items_body [])) (from_42 "/confirm 2:a")
           {| user_id := 42; username := Some (lit "gabe") |}
           {| http_status := 200; content := items_body [] |}
           (JDict [(lit "items", JList [])]) (JList []));
    reflexivity.
Defined.

(** [/confirm] followed by two spaces: the usage text, no request. *)
Lemma confirm_without_argument_witness :
  confirm sample_repr sample_int sample_describe (always 200 (items_body []))
          (from_42 "/confirm  ")
  = (Ok tt, [Answer confirm_usage None]) /\
  run (always 200 (items_body [])) (from_42 "/confirm  ")
  = (Ok tt, [Answer confirm_usage None]).
Proof.
  destruct (@confirm_without_argument sample_repr sample_int sample_describe
              sample_mention (always 200 (items_body []))
              (from_42 "/confirm  ") (lit "/confirm") (lit "  "))
    as [Hc Hd]; try reflexivity.
  split; [exact Hc | exact (Hd eq_refl)].
Defined.

(** Status 404 with the body [{"message": "no such code"}]: the codes
    handler replies with that text after its prefix, not with the JSON. *)
Lemma backend_error_carries_message_witness :
  run (always 404 (Decoded (JDict [(lit "message", JStr (lit "no such code"))])))
      (from_42 "/codes")
  = (Ok tt,
     [Request (lit "GET") (lit "/api/telegram/bot/codes/42") None;
      Answer (lit "Failed to fetch codes: no such code") None]) /\
  exists prefix,
    In prefix failure_prefixes /\
    replies [Request (lit "GET") (lit "/api/telegram/bot/codes/42") None;
             Answer (lit "Failed to fetch codes: no such code") None]
    = [prefix ++ lit "no such code"].
Proof.
  split; [vm_compute; reflexivity|].
  destruct (@backend_error_carries_message sample_repr sample_int sample_describe
              sample_mention
              (always 404 (Decoded (JDict [(lit "message", JStr (lit "no such code"))])))
              (lit "GET") (lit "/api/telegram/bot/codes/42") None
              {| http_status := 404;
                 content := Decoded (JDict [(lit "message", JStr (lit "no such code"))]) |}
              [(lit "message", JStr (lit "no such code"))]
              (JStr (lit "no such code")))
    as (_ & _ & _ & Hreply); try reflexivity; [simpl; lia|].
  apply (Hreply (from_42 "/codes")); [vm_compute; reflexivity | now left].
Defined.

(** Status 500 with the body [{"error": "boom"}]: the reply shows [None]. *)
Lemma backend_error_without_message_witness :
  run (always 500 (Decoded (JDict [(lit "error", JStr (lit "boom"))])))
      (from_42 "/codes")
  = (Ok tt,
     [Request (lit "GET") (lit "/api/telegram/bot/codes/42") None;
      Answer (lit "Failed to fetch codes: None") None]) /\
  exists prefix,
    In prefix failure_prefixes /\
    replies [Request (lit "GET") (lit "/api/telegram/bot/codes/42") None;
             Answer (lit "Failed to fetch codes: None") None]
    = [prefix ++ lit "None"].
Proof.
  split; [vm_compute; reflexivity|].
  destruct (@backend_error_without_message sample_repr sample_int sample_describe
              sample_mention
              (always 500 (Decoded (JDict [(lit "error", JStr (lit "boom"))])))
              (lit "GET") (lit "/api/telegram/bot/codes/42") None
              {| http_status := 500;
                 content := Decoded (JDict [(lit "error", JStr (lit "boom"))]) |}
              [(lit "error", JStr (lit "boom"))])
    as (_ & _ & Hreply); try reflexivity; [simpl; lia|].
  apply (Hreply (from_42 "/codes")); [vm_compute; reflexivity | now left].
Defined.

(** [/start login_login_x ] with a trailing space: the code sent is
    [login_x ], second prefix and trailing space kept. *)
Lemma start_login_code_witness :
  command sample_mention (lit "start") true (from_42 "/start login_login_x ") = true /\
  exists reply,
    run (always 200 (Decoded (JDict []))) (from_42 "/start login_login_x ")
    = (Ok tt,
       [Request (lit "POST") (lit "/api/telegram/bot/oauth")
          (Some (JDict [(lit "code", JStr (lit "login_x "));
                        (lit "telegramUserId", JStr (str_of_int 42));
                        (lit "username", JStr (lit "gabe"))]));
        Answer reply None]).
Proof.
  apply (@start_login_code sample_repr sample_int sample_describe sample_mention
           (always 200 (Decoded (JDict []))) (from_42 "/start login_login_x ")
           {| user_id := 42; username := Some (lit "gabe") |}
           (lit " ") (lit "login_x "));
    try reflexivity. discriminate.
Defined.

(** [/start foo]: the list of commands, and no request. *)
Lemma start_without_login_witness :
  run (always 200 (Decoded (JDict []))) (from_42 "/start foo")
  = (Ok tt, [Answer start_help None]).
Proof.
  apply (@start_without_login sample_repr sample_int sample_describe sample_mention
           (always 200 (Decoded (JDict []))) (from_42 "/start foo")
           (lit " ") (lit "foo")); try reflexivity.
  split; [reflexivity | discriminate].
Defined.

(** Against C9 as worded: [/start foo] and the bare [/start] do not get
    the same reply. *)
Lemma start_with_other_argument_differs :
  run (always 200 (Decoded (JDict []))) (from_42 "/start foo")
  = (Ok tt, [Answer start_help None]) /\
  run (always 200 (Decoded (JDict []))) (from_42 "/start")
  = (Ok tt, [Answer start_greeting None]) /\
  start_help <> start_greeting.
Proof.
  split; [vm_compute; reflexivity|]. split; [vm_compute; reflexivity|].
  discriminate.
Qed.

(** ** Worked examples, continued *)

(** [/status] from nobody: one reply, no request. *)
Lemma no_sender_no_request_witness :
  exists reply,
    run (always 200 (items_body [])) (unsigned "/status")
    = (Ok tt, [Answer reply None]).
Proof.
  apply (no_sender_no_request sample_repr sample_int sample_describe
           sample_mention (always 200 (items_body [])) (unsigned "/status")).
  reflexivity.
Defined.

(** [/status] while the backend is down. *)
Lemma no_response_is_reported_witness :
  run unreachable (from_42 "/status")
  = (Ok tt,
     [Request (lit "GET") (lit "/api/telegram/bot/accounts/42") None;
      Answer (lit "Backend connection error: Cannot connect to host backend:3001")
             None]) /\
  exists prefix,
    In prefix failure_prefixes /\
    replies [Request (lit "GET") (lit "/api/telegram/bot/accounts/42") None;
             Answer (lit "Backend connection error: Cannot connect to host backend:3001")
                    None]
    = [prefix ++ lit "Cannot connect to host backend:3001"].
Proof.
  split; [vm_compute; reflexivity|].
  destruct (no_response_is_reported sample_repr sample_int sample_describe
              sample_mention unreachable
              (lit "GET") (lit "/api/telegram/bot/accounts/42") None
              (why := lit "Cannot connect to host backend:3001"))
    as (_ & Hreply); [reflexivity|].
  apply (Hreply (from_42 "/status")); [vm_compute; reflexivity | now left].
Defined.

(** Status 502 with the JSON string ["Bad Gateway"] as body. *)
Lemma backend_error_other_body_witness :
  run (always 502 (Decoded (JStr (lit "Bad Gateway")))) (from_42 "/accounts")
  = (Ok tt,
     [Request (lit "GET") (lit "/api/telegram/bot/accounts/42") None;
      Answer (lit "Failed to fetch accounts: Bad Gateway") None]) /\
  exists prefix,
    In prefix failure_prefixes /\
    replies [Request (lit "GET") (lit "/api/telegram/bot/accounts/42") None;
             Answer (lit "Failed to fetch accounts: Bad Gateway") None]
    = [prefix ++ lit "Bad Gateway"].
Proof.
  split; [vm_compute; reflexivity|].
  destruct (backend_error_other_body sample_repr sample_int sample_describe
              sample_mention (always 502 (Decoded (JStr (lit "Bad Gateway"))))
              (lit "GET") (lit "/api/telegram/bot/accounts/42") None
              (r := {| http_status := 502;
                       content := Decoded (JStr (lit "Bad Gateway")) |})
              (data := JStr (lit "Bad Gateway")))
    as (_ & Hreply); try reflexivity; [simpl; lia | discriminate |].
  apply (Hreply (from_42 "/accounts")); [vm_compute; reflexivity | now left].
Defined.

(** [/status] when the backend answers 200 with [null]. *)
Lemma status_ok_witness :
  status sample_repr sample_describe (always 200 (Decoded JNull)) (from_42 "/status")
  = (Ok tt,
     [Request (lit "GET")
              (lit "/api/telegram/bot/accounts/" ++ str_of_int 42) None;
      Answer (lit "Backend connection: OK") None]).
Proof.
  apply (status_ok sample_repr sample_describe (always 200 (Decoded JNull))
           (from_42 "/status") (u := gabe)
           (r := {| http_status := 200; content := Decoded JNull |})
           (data := JNull)); reflexivity.
Defined.

(** One account without a steamid. *)
Lemma accounts_lists_items_witness :
  accounts sample_repr sample_describe
           (always 200 (items_body [account_item 7 "main"])) (from_42 "/accounts")
  = (Ok tt,
     [Request (lit "GET")
              (lit "/api/telegram/bot/accounts/" ++ str_of_int 42) None;
      Answer (join nl [lit "Your Steam accounts:"; lit "- [7] main (no steamid)"])
             None]).
Proof.
  apply (accounts_lists_items (repr_compound := sample_repr) sample_describe
           (always 200 (items_body [account_item 7 "main"])) (from_42 "/accounts")
           (u := gabe)
           (r := {| http_status := 200;
                    content := items_body [account_item 7 "main"] |})
           (d := [(lit "items", JList [account_item 7 "main"])])
           (its := [account_item 7 "main"])
           (rows := [lit "- [7] main (no steamid)"]));
    try reflexivity; [discriminate|].
  repeat constructor.
  exists (JInt 7), (JStr (lit "main")), JNull. repeat split; reflexivity.
Defined.

(** A body without [items]. *)
Lemma accounts_empty_witness :
  accounts sample_repr sample_describe (always 200 (Decoded (JDict [])))
           (from_42 "/accounts")
  = (Ok tt,
     [Request (lit "GET")
              (lit "/api/telegram/bot/accounts/" ++ str_of_int 42) None;
      Answer (lit "No Steam accounts linked.") None]).
Proof.
  apply (accounts_empty sample_repr sample_describe
           (always 200 (Decoded (JDict []))) (from_42 "/accounts")
           (u := gabe)
           (r := {| http_status := 200; content := Decoded (JDict []) |})
           (data := JDict []) (items := JList [])); reflexivity.
Defined.

(** The second account has no alias: no line of the first is sent. *)
Lemma accounts_unreadable_item_witness :
  accounts sample_repr sample_describe
           (always 200 (items_body [account_item 7 "main"; JDict [(lit "id", JInt 8)]]))
           (from_42 "/accounts")
  = (Ok tt,
     [Request (lit "GET")
              (lit "/api/telegram/bot/accounts/" ++ str_of_int 42) None;
      Answer (lit "Failed to fetch accounts: 'alias'") None]).
Proof.
  apply (accounts_unreadable_item (repr_compound := sample_repr) sample_describe
           (always 200 (items_body [account_item 7 "main"; JDict [(lit "id", JInt 8)]]))
           (from_42 "/accounts") (u := gabe)
           (r := {| http_status := 200;
                    content := items_body [account_item 7 "main";
                                           JDict [(lit "id", JInt 8)]] |})
           (d := [(lit "items", JList [account_item 7 "main";
                                       JDict [(lit "id", JInt 8)]])])
           (before := [account_item 7 "main"]) []
           (JDict [(lit "id", JInt 8)])
           (rows := [lit "- [7] main (no steamid)"])
           (e := KeyError (lit "alias")));
    try reflexivity.
  - repeat constructor.
    exists (JInt 7), (JStr (lit "main")), JNull. repeat split; reflexivity.
  - right. exists (JInt 8). split; reflexivity.
Defined.

(** One code. *)
Lemma codes_lists_items_witness :
  codes sample_repr sample_describe
        (always 200 (items_body [code_item "main" "K7XQ2"])) (from_42 "/codes")
  = (Ok tt,
     [Request (lit "GET")
              (lit "/api/telegram/bot/codes/" ++ str_of_int 42) None;
      Answer (join nl [lit "Current Steam codes:"; lit "- main: `K7XQ2`"])
             (Some (lit "Markdown"))]).
Proof.
  apply (codes_lists_items (repr_compound := sample_repr) sample_describe
           (always 200 (items_body [code_item "main" "K7XQ2"])) (from_42 "/codes")
           (u := gabe)
           (r := {| http_status := 200;
                    content := items_body [code_item "main" "K7XQ2"] |})
           (d := [(lit "items", JList [code_item "main" "K7XQ2"])])
           (its := [code_item "main" "K7XQ2"])
           (rows := [lit "- main: `K7XQ2`"]));
    try reflexivity; [discriminate|].
  repeat constructor.
  exists (JStr (lit "main")), (JStr (lit "K7XQ2")). repeat split; reflexivity.
Defined.

(** [/confirm 2:a] among accounts 1 and 2: account 1 is passed over on its
    account id, account 2 is chosen. *)
Lemma resolve_pair_first_match_witness :
  resolve sample_repr (JList [pending_item 1 "a"; pending_item 2 "a"]) (lit "2:a")
  = Ok (pending_item 2 "a").
Proof.
  apply (resolve_pair_first_match sample_repr
           (before := [pending_item 1 "a"]) [] (pending_item 2 "a")
           (a := JInt 2) (c := JStr (lit "a")) (lit "2:a")
           (left := lit "2") (right := lit "a"));
    try reflexivity.
  repeat constructor. exists (JInt 1). split; [reflexivity|].
  left. discriminate.
Defined.

(** [/confirm a] with two items of confirmation id [a]: the POST is the
    one of account 1. *)
Lemma confirm_posts_first_match_witness :
  confirm sample_repr sample_int sample_describe
          (always 200 (items_body [pending_item 1 "a"; pending_item 2 "a"]))
          (from_42 "/confirm a")
  = (Ok tt,
     [Request (lit "GET")
              (lit "/api/telegram/bot/confirms/" ++ str_of_int 42) None;
      Request (lit "POST") (lit "/api/telegram/bot/confirm")
        (Some (JDict [(lit "telegramUserId", JStr (str_of_int 42));
                      (lit "accountId", JInt 1);
                      (lit "confirmationId", JStr (strip (lit "a")));
                      (lit "nonce", JNull)]));
      Answer confirm_sent None]).
Proof.
  apply (confirm_posts_first_match sample_repr sample_int sample_describe
           (always 200 (items_body [pending_item 1 "a"; pending_item 2 "a"]))
           (from_42 "/confirm a") (u := gabe)
           (w := lit "/confirm") (part := lit "a")
           (r := {| http_status := 200;
                    content := items_body [pending_item 1 "a"; pending_item 2 "a"] |})
           (r' := {| http_status := 200;
                     content := items_body [pending_item 1 "a"; pending_item 2 "a"] |})
           (d := [(lit "items", JList [pending_item 1 "a"; pending_item 2 "a"])])
           [(lit "account_id", JInt 1); (lit "confirmation_id", JStr (lit "a"))]
           (before := []) [pending_item 2 "a"]
           (account := 1%Z) (c := JStr (lit "a"))
           (data := JDict [(lit "items",
                            JList [pending_item 1 "a"; pending_item 2 "a"])]));
    try reflexivity.
  constructor.
Defined.

(** [/confirm zzz] when only [a] is pending. *)
Lemma confirm_not_found_witness :
  confirm sample_repr sample_int sample_describe
          (always 200 (items_body [pending_item 1 "a"]))
          (from_42 "/confirm zzz")
  = (Ok tt,
     [Request (lit "GET")
              (lit "/api/telegram/bot/confirms/" ++ str_of_int 42) None;
      Answer (lit "Trade confirmation id not found in pending queue.") None]).
Proof.
  apply (confirm_not_found sample_repr sample_int sample_describe
           (always 200 (items_body [pending_item 1 "a"]))
           (from_42 "/confirm zzz") (u := gabe)
           (w := lit "/confirm") (part := lit "zzz")
           (r := {| http_status := 200;
                    content := items_body [pending_item 1 "a"] |})
           (d := [(lit "items", JList [pending_item 1 "a"])])
           (its := [pending_item 1 "a"]));
    try reflexivity; [discriminate|].
  repeat constructor. exists (JStr (lit "a")). split; [reflexivity | discriminate].
Defined.

(** The first item has no confirmation id: [/confirm a] fails although
    the second item matches. *)
Lemma confirm_unreadable_item_witness :
  confirm sample_repr sample_int sample_describe
          (always 200 (items_body [JDict [(lit "account_id", JInt 1)];
                                   pending_item 2 "a"]))
          (from_42 "/confirm a")
  = (Ok tt,
     [Request (lit "GET")
              (lit "/api/telegram/bot/confirms/" ++ str_of_int 42) None;
      Answer (lit "Confirm failed: 'confirmation_id'") None]).
Proof.
  apply (confirm_unreadable_item sample_repr sample_int sample_describe
           (always 200 (items_body [JDict [(lit "account_id", JInt 1)];
                                    pending_item 2 "a"]))
           (from_42 "/confirm a") (u := gabe)
           (w := lit "/confirm") (part := lit "a")
           (r := {| http_status := 200;
                    content := items_body [JDict [(lit "account_id", JInt 1)];
                                           pending_item 2 "a"] |})
           (d := [(lit "items", JList [JDict [(lit "account_id", JInt 1)];
                                       pending_item 2 "a"])])
           (before := []) [pending_item 2 "a"]
           (JDict [(lit "account_id", JInt 1)])
           (e := KeyError (lit "confirmation_id")));
    try reflexivity.
  constructor.
Defined.

(** The POST of [/confirm a] is built from a listed item. *)
Lemma confirm_posts_only_listed_witness :
  exists chosen p,
    In chosen [pending_item 1 "a"; pending_item 2 "a"] /\
    confirm_payload sample_repr sample_int (from_42 "/confirm a") chosen = Ok p /\
    p = JDict [(lit "telegramUserId", JStr (lit "42"));
               (lit "accountId", JInt 1);
               (lit "confirmationId", JStr (lit "a"));
               (lit "nonce", JNull)].
Proof.
  destruct (confirm_posts_only_listed sample_repr sample_int sample_describe
              (always 200 (items_body [pending_item 1 "a"; pending_item 2 "a"]))
              (from_42 "/confirm a")
              (lit "/api/telegram/bot/confirm")
              (Some (JDict [(lit "telegramUserId", JStr (lit "42"));
                            (lit "accountId", JInt 1);
                            (lit "confirmationId", JStr (lit "a"));
                            (lit "nonce", JNull)])))
    as (u & r & pending & items & its & part & chosen & p &
        _ & Hb & _ & Hc & Hitems & _ & _ & Hits & Hin & Hp & _ & Hpay).
  - right. left. reflexivity.
  - injection Hb as <-. simpl in Hc. injection Hc as <-.
    injection Hitems as <-. injection Hits as <-.
    exists chosen, p. split; [exact Hin|]. split; [exact Hp|]. congruence.
Defined.


(** The GET of [/codes] from user 42 is for [codes/42] and nothing else. *)
Lemma requests_carry_sender_witness :
  (lit "GET" = lit "GET" /\ @None json = None /\
   exists front,
     In front [lit "/api/telegram/bot/accounts/"; lit "/api/telegram/bot/codes/";
               lit "/api/telegram/bot/confirms/"] /\
     lit "/api/telegram/bot/codes/42" = front ++ str_of_int 42) \/
  (lit "GET" = lit "POST" /\
   In (lit "/api/telegram/bot/codes/42")
      [lit "/api/telegram/bot/oauth"; lit "/api/telegram/bot/link";
       lit "/api/telegram/bot/confirm"] /\
   exists d, @None json = Some (JDict d) /\
             lookup (lit "telegramUserId") d = Some (JStr (str_of_int 42))).
Proof.
  apply (requests_carry_sender sample_repr sample_int sample_describe
           sample_mention (always 200 (items_body [code_item "main" "K7XQ2"]))
           (from_42 "/codes") (u := gabe)
           (lit "GET") (lit "/api/telegram/bot/codes/42") None).
  - reflexivity.
  - left. reflexivity.
Defined.

(** [/add=XY=Z ]: the second [=] stays in the code, the final space goes. *)
Lemma add_equals_links_witness :
  exists reply,
    run (always 200 (Decoded (JDict []))) (from_42 "/add=XY=Z ")
    = (Ok tt,
       [Request (lit "POST") (lit "/api/telegram/bot/link")
          (Some (JDict [(lit "code", JStr (rstrip (lit "XY=Z ")));
                        (lit "telegramUserId", JStr (str_of_int 42));
                        (lit "username", JStr (lit "gabe"))]));
        Answer reply None]) /\
    rstrip (lit "XY=Z ") = lit "XY=Z".
Proof.
  destruct (add_equals_links sample_repr sample_int sample_describe sample_mention
              (always 200 (Decoded (JDict []))) (from_42 "/add=XY=Z ")
              (u := gabe) (code := lit "XY=Z ")) as [reply H];
    try reflexivity.
  exists reply. split; [exact H | reflexivity].
Defined.

(** [/add   XYZ ]: the code is [XYZ]. *)
Lemma add_space_links_witness :
  exists reply,
    run (always 200 (Decoded (JDict []))) (from_42 "/add   XYZ ")
    = (Ok tt,
       [Request (lit "POST") (lit "/api/telegram/bot/link")
          (Some (JDict [(lit "code", JStr (strip (lit "  XYZ ")));
                        (lit "telegramUserId", JStr (str_of_int 42));
                        (lit "username", JStr (lit "gabe"))]));
        Answer reply None]) /\
    strip (lit "  XYZ ") = lit "XYZ".
Proof.
  destruct (add_space_links sample_repr sample_int sample_describe sample_mention
              (always 200 (Decoded (JDict []))) (from_42 "/add   XYZ ")
              (u := gabe) (rest := lit "  XYZ ")) as [reply H];
    try reflexivity; [discriminate|].
  exists reply. split; [exact H | reflexivity].
Defined.

(** [/add=XYZ] and [/add XYZ]. *)
Lemma add_forms_agree_witness :
  run (always 200 (Decoded (JDict []))) (from_42 "/add=XYZ")
  = run (always 200 (Decoded (JDict []))) (from_42 "/add XYZ").
Proof.
  apply (add_forms_agree sample_repr sample_int sample_describe sample_mention
           (always 200 (Decoded (JDict [])))
           (from_42 "/add=XYZ") (from_42 "/add XYZ") (code := lit "XYZ"));
    try reflexivity. discriminate.
Defined.

(** [/address]: no code, the help text. *)
Lemma add_needs_equals_or_space_witness :
  run (always 200 (Decoded (JDict []))) (from_42 "/address")
  = (Ok tt, [Answer unknown_command None]).
Proof.
  apply (add_needs_equals_or_space sample_repr sample_int sample_describe
           sample_mention (always 200 (Decoded (JDict [])))
           (from_42 "/address") (rest := lit "ress")); [reflexivity|].
  split; discriminate.
Defined.

(** [ hello]: the help text. *)
Lemma plain_text_gets_help_witness :
  run (always 200 (Decoded (JDict []))) (from_42 " hello")
  = (Ok tt, [Answer unknown_command None]).
Proof.
  apply (plain_text_gets_help sample_repr sample_int sample_describe
           sample_mention (always 200 (Decoded (JDict [])))
           (from_42 " hello") (t := lit " hello")); [reflexivity | discriminate |].
  intros c r H. injection H as <- _. discriminate.
Defined.

(** [/confirm a] and [/confirm a  ]. *)
Lemma confirm_ignores_trailing_space_witness :
  confirm sample_repr sample_int sample_describe
          (always 200 (items_body [pending_item 1 "a"])) (from_42 "/confirm a")
  = confirm sample_repr sample_int sample_describe
            (always 200 (items_body [pending_item 1 "a"])) (from_42 "/confirm a  ").
Proof.
  apply (confirm_ignores_trailing_space sample_repr sample_int sample_describe
           sample_mention (always 200 (items_body [pending_item 1 "a"]))
           (from_42 "/confirm a") (from_42 "/confirm a  ")
           (ws := lit " ") [] (lit "  ") 97%N);
    try reflexivity. discriminate.
Defined.

(** A photo with the caption [/confirm 123]: the usage text. *)
Lemma confirm_in_caption_gets_usage_witness :
  run (always 200 (items_body [pending_item 1 "123"])) (captioned "/confirm 123")
  = (Ok tt, [Answer confirm_usage None]).
Proof.
  apply (confirm_in_caption_gets_usage sample_repr sample_int sample_describe
           sample_mention (always 200 (items_body [pending_item 1 "123"]))
           (captioned "/confirm 123")); reflexivity.
Defined.

(** ** Worked examples: sends that fail, bodies that are blank *)

(** The dispatcher over a chat that may refuse, in the sample surroundings. *)
Abbreviation run' backend chat m :=
  (dispatch' sample_repr sample_int sample_describe sample_mention backend chat m)
  (only parsing).


(** Status 200 with an HTML page as body: [/status] reports the decoder's
    error and does not say OK. *)
Lemma rejected_body_is_failure_witness :
  run (always 200 (response_json sample_loads (lit "<html>Bad Gateway</html>")))
      (from_42 "/status")
  = (Ok tt,
     [Request (lit "GET") (lit "/api/telegram/bot/accounts/42") None;
      Answer (lit "Backend connection error: Expecting value: line 1 column 1 (char 0)")
             None]) /\
  exists prefix,
    In prefix failure_prefixes /\
    replies [Request (lit "GET") (lit "/api/telegram/bot/accounts/42") None;
             Answer (lit "Backend connection error: Expecting value: line 1 column 1 (char 0)")
                    None]
    = [prefix ++ lit "Expecting value: line 1 column 1 (char 0)"].
Proof.
  split; [vm_compute; reflexivity|].
  destruct (@rejected_body_is_failure sample_repr sample_int sample_describe
              sample_mention
              (always 200 (response_json sample_loads (lit "<html>Bad Gateway</html>")))
              sample_loads (lit "<html>Bad Gateway</html>")
              (lit "GET") (lit "/api/telegram/bot/accounts/42") None
              {| http_status := 200;
                 content := response_json sample_loads
                              (lit "<html>Bad Gateway</html>") |})
    as [Hrejected _]; try reflexivity.
  destruct (Hrejected (lit "Expecting value: line 1 column 1 (char 0)"))
    as [_ Hreply]; [discriminate | reflexivity |].
  apply (Hreply (from_42 "/status")); [vm_compute; reflexivity | now left].
Defined.

(** Against C7 as worded.  An empty body is no JSON text, and the decoder
    would reject it; but it is never given to the decoder: the call
    returns [None], and at status 200 [/status] says OK and [/add=XYZ]
    says that the account was linked. *)
Lemma blank_body_is_success :
  sample_loads [] = Undecodable (lit "Expecting value: line 1 column 1 (char 0)") /\
  response_json sample_loads [] = Decoded JNull /\
  run (always 200 (response_json sample_loads [])) (from_42 "/status")
  = (Ok tt,
     [Request (lit "GET") (lit "/api/telegram/bot/accounts/42") None;
      Answer (lit "Backend connection: OK") None]) /\
  replies (snd (run (always 200 (response_json sample_loads [])) (from_42 "/add=XYZ")))
  = [lit "Telegram account linked successfully."].
Proof. repeat split; vm_compute; reflexivity. Qed.
